(** * dev-tooling-go: the command-line lifecycle manager and its context helpers

    A shallow embedding of the Go packages [commandline], [logging] and
    [fileutils], together with the small part of the Go runtime they drive
    (value-carrying contexts, cancellation, [os/signal] subscriptions and the
    goroutine that watches them). *)

From Stdlib Require Import String List ZArith Bool Arith Lia.
Import ListNotations.
Open Scope string_scope.

(** ** Go control outcomes *)

(** A Go expression either yields a value or panics with a message. *)
Inductive panics (T : Type) : Type :=
| Returns (v : T)
| Panicked (msg : string).
Arguments Returns {T} v.
Arguments Panicked {T} msg.

(** A Go procedure run on a state runs to its end, unwinds with a panic, or
    parks for ever on a receive; the effects performed before that persist. *)
Inductive run (S : Type) : Type :=
| Finished (s : S)
| Aborted (msg : string) (s : S)
| Blocked (s : S).
Arguments Finished {S} s.
Arguments Aborted {S} msg s.
Arguments Blocked {S} s.

Definition state_of {S : Type} (r : run S) : S :=
  match r with Finished s => s | Aborted _ s => s | Blocked s => s end.

(** The same outcome, seen from an enclosing state. *)
Definition run_map {S T : Type} (f : S -> T) (r : run S) : run T :=
  match r with
  | Finished s => Finished (f s)
  | Aborted msg s => Aborted msg (f s)
  | Blocked s => Blocked (f s)
  end.

(** ** logrus levels *)

Module Logrus.

(** [logrus.Level], in the order of its constants. *)
Inductive Level : Type :=
| PanicLevel | FatalLevel | ErrorLevel | WarnLevel
| InfoLevel | DebugLevel | TraceLevel.

(** [io.Writer] sinks a logger can be bound to. *)
Inductive Writer : Type :=
| Stderr
| Stdout
| Buffer (id : nat).

(** The part of [logrus.Logger] that [logging.New] sets. *)
Record Logger : Type := mkLogger {
  Out : Writer;
  GetLevel : Level
}.

End Logrus.

(** ** io/fs *)

Module Fs.

(** Dynamic values that implement [fs.FS]. *)
Inductive Impl : Type :=
| MapFS (files : list (string * string))
| DirFS (dir : string).

(** An [fs.FS] interface value; [None] is the nil interface. *)
Definition FS : Type := option Impl.

End Fs.

(** ** context *)

Module GoContext.

(** Context keys are compared with [==] on interface values, so a key is a
    dynamic type together with its value: the plain string ["rootDir"] and
    [fileutils.contextKey("rootDir")] are different keys. *)
Inductive Key : Type :=
| StringKey (s : string)
| FileutilsKey (s : string)
| LoggingKey (s : string).

Definition key_eqb (a b : Key) : bool :=
  match a, b with
  | StringKey s, StringKey t => String.eqb s t
  | FileutilsKey s, FileutilsKey t => String.eqb s t
  | LoggingKey s, LoggingKey t => String.eqb s t
  | _, _ => false
  end.

(** Non-nil dynamic values stored in a context. *)
Inductive Dyn : Type :=
| DString (s : string)
| DLogger (l : Logrus.Logger)
| DFS (f : Fs.Impl).

(** [any]; [None] is the nil interface value. *)
Definition any : Type := option Dyn.

(** The chain a [context.Context] is: [context.Background()], a
    [valueCtx] from [context.WithValue], or a [cancelCtx] from
    [context.WithCancel] carrying the identity of its cancel function. *)
Inductive Context : Type :=
| Background
| valueCtx (parent : Context) (key : Key) (val : any)
| cancelCtx (parent : Context) (id : nat).

Definition WithValue (parent : Context) (key : Key) (val : any) : Context :=
  valueCtx parent key val.

(** [ctx.Value(key)]: the innermost binding of [key], nil at the root. *)
Fixpoint Value (ctx : Context) (key : Key) : any :=
  match ctx with
  | Background => None
  | valueCtx parent k v => if key_eqb k key then v else Value parent key
  | cancelCtx parent _ => Value parent key
  end.

(** The innermost binding itself, which tells a missing key ([None]) from
    a key bound to nil ([Some None]); [Value] cannot tell them apart. *)
Fixpoint binding (ctx : Context) (key : Key) : option any :=
  match ctx with
  | Background => None
  | valueCtx parent k v => if key_eqb k key then Some v else binding parent key
  | cancelCtx parent _ => binding parent key
  end.

(** The cancel identities on the chain: the context is done as soon as one
    of them has been cancelled. *)
Fixpoint cancels (ctx : Context) : list nat :=
  match ctx with
  | Background => []
  | valueCtx parent _ _ => cancels parent
  | cancelCtx parent id => id :: cancels parent
  end.

End GoContext.

(** ** fileutils *)

Module Fileutils.
Import GoContext.

Definition rootDirKey : Key := FileutilsKey "rootDir".

(** Conversion of an [fs.FS] to [any] when it is passed to [WithValue]. *)
Definition fs_to_any (files : Fs.FS) : any := option_map DFS files.

(** The type assertion [v.(fs.FS)] in its two-result form. *)
Definition assert_FS (v : any) : Fs.FS * bool :=
  match v with
  | Some (DFS f) => (Some f, true)
  | _ => (None, false)
  end.

Definition ApplyRootDirToContext (ctx : Context) (files : Fs.FS) : Context :=
  let ctx := WithValue ctx rootDirKey (fs_to_any files) in
  ctx.

Definition no_root_dir : string := "No root dir found in context, bad code path".

(** [RootDirFromContext] with the test [!ok]. *)
Definition RootDirFromContext (ctx : Context) : panics Fs.FS :=
  let '(rootDir, ok) := assert_FS (Value ctx rootDirKey) in
  if negb ok then Panicked no_root_dir else Returns rootDir.

(** [RootDirFromContext] with the test [!ok || rootDir == nil]. *)
Definition RootDirFromContext_nilcheck (ctx : Context) : panics Fs.FS :=
  let '(rootDir, ok) := assert_FS (Value ctx rootDirKey) in
  if negb ok || match rootDir with None => true | Some _ => false end
  then Panicked no_root_dir
  else Returns rootDir.

End Fileutils.

(** ** logging *)

Module Logging.
Import GoContext.

Definition contextKey : Key := LoggingKey "logger".

(** [logging.New]: the formatter it installs does not depend on its
    arguments and is left out. *)
Definition New (stream : Logrus.Writer) (level : Logrus.Level) : Logrus.Logger :=
  {| Logrus.Out := stream; Logrus.GetLevel := level |}.

(** [logger] stands for a non-nil pointer; a nil [*logrus.Logger], which
    [FromContext] would hand back as it is, has no counterpart here. *)
Definition AddToContext (ctx : Context) (logger : Logrus.Logger) : Context :=
  WithValue ctx contextKey (Some (DLogger logger)).

Definition FromContext (ctx : Context) : panics Logrus.Logger :=
  match Value ctx contextKey with
  | Some (DLogger logger) => Returns logger
  | _ => Panicked "no logger set in context"
  end.

End Logging.

(** ** The runtime the lifecycle manager drives: channels, cancellation,
       signal subscriptions and the goroutines that watch them *)

Module Runtime.
Import GoContext.

(** A goroutine parked in
    [select { case <-c: cancel(); case <-ctx.Done(): }]. *)
Record Watcher : Type := mkWatcher {
  w_chan : nat;          (* the signal channel [c] *)
  w_cancel : nat;        (* the cancel function called when a signal arrives *)
  w_ctx : Context;       (* the context whose [Done()] it also waits on *)
  w_stop : bool;         (* [defer signal.Stop(c)] *)
  w_done : option nat    (* [defer close(signalDone)] *)
}.

Record T : Type := mk {
  fresh : nat;             (* next unused identity of a channel or cancel function *)
  handlers : list nat;     (* channels registered with [signal.Notify] *)
  buffered : list nat;     (* signal channels (capacity 1) holding a signal *)
  watchers : list Watcher; (* live background goroutines *)
  cancelled : list nat;    (* cancel functions that have been called *)
  closed : list nat        (* closed channels *)
}.

(** The runtime of a process that has just started. *)
Definition init : T := mk 0 [] [] [] [] [].

Definition mem (n : nat) (l : list nat) : bool := existsb (Nat.eqb n) l.

Definition remove (n : nat) (l : list nat) : list nat :=
  filter (fun m => negb (Nat.eqb n m)) l.

Definition add (n : nat) (l : list nat) : list nat :=
  if mem n l then l else n :: l.

(** [make(chan ...)]. *)
Definition make_chan (r : T) : nat * T :=
  (fresh r,
   mk (S (fresh r)) (handlers r) (buffered r) (watchers r) (cancelled r) (closed r)).

(** [context.WithCancel(parent)]: the derived context and the identity of
    its cancel function. *)
Definition WithCancel (parent : Context) (r : T) : Context * nat * T :=
  (cancelCtx parent (fresh r), fresh r,
   mk (S (fresh r)) (handlers r) (buffered r) (watchers r) (cancelled r) (closed r)).

(** Calling a cancel function; calling it again changes nothing. *)
Definition cancel (id : nat) (r : T) : T :=
  mk (fresh r) (handlers r) (buffered r) (watchers r) (add id (cancelled r)) (closed r).

(** [ctx.Done()] is closed: the context or one of its ancestors has been
    cancelled. *)
Definition done (r : T) (ctx : Context) : bool :=
  existsb (fun id => mem id (cancelled r)) (cancels ctx).

(** [signal.Notify(c, SIGTERM, SIGINT)]. *)
Definition Notify (c : nat) (r : T) : T :=
  mk (fresh r) (add c (handlers r)) (buffered r) (watchers r) (cancelled r) (closed r).

(** [signal.Stop(c)]; a channel that is not registered is left alone. *)
Definition Stop (c : nat) (r : T) : T :=
  mk (fresh r) (remove c (handlers r)) (buffered r) (watchers r) (cancelled r) (closed r).

Definition close (c : nat) (r : T) : T :=
  mk (fresh r) (handlers r) (buffered r) (watchers r) (cancelled r) (add c (closed r)).

(** [go func() { ... }()] for a watcher. *)
Definition go (g : Watcher) (r : T) : T :=
  mk (fresh r) (handlers r) (buffered r) (watchers r ++ [g]) (cancelled r) (closed r).

(** The operating system delivers SIGINT or SIGTERM: every registered
    channel with room in its buffer receives it. *)
Definition deliver (r : T) : T :=
  mk (fresh r) (handlers r) (fold_right add (buffered r) (handlers r))
     (watchers r) (cancelled r) (closed r).

Fixpoint drop_nth {X : Type} (i : nat) (l : list X) : list X :=
  match l, i with
  | [], _ => []
  | _ :: tl, O => tl
  | x :: tl, S j => x :: drop_nth j tl
  end.

(** The [i]-th watcher returns: it leaves the goroutine list and its
    deferred calls run, [signal.Stop(c)] before [close(signalDone)]. *)
Definition leave (i : nat) (g : Watcher) (r : T) : T :=
  let r := mk (fresh r) (handlers r) (buffered r) (drop_nth i (watchers r))
              (cancelled r) (closed r) in
  let r := if w_stop g then Stop (w_chan g) r else r in
  match w_done g with
  | Some d => close d r
  | None => r
  end.

(** The branch [case <-c: cancel()]. *)
Definition take_signal (i : nat) (g : Watcher) (r : T) : T :=
  let r := mk (fresh r) (handlers r) (remove (w_chan g) (buffered r)) (watchers r)
              (cancelled r) (closed r) in
  leave i g (cancel (w_cancel g) r).

(** The scheduler runs the [i]-th watcher.  When both branches of its
    [select] are ready Go picks either one; [prefer_signal] is that
    choice.  A watcher with no ready branch stays parked. *)
Definition wake (i : nat) (prefer_signal : bool) (r : T) : T :=
  match nth_error (watchers r) i with
  | None => r
  | Some g =>
      let sig := mem (w_chan g) (buffered r) in
      let dn := done r (w_ctx g) in
      if sig && (prefer_signal || negb dn) then take_signal i g r
      else if dn then leave i g r
      else r
  end.

Fixpoint find_done (d : nat) (i : nat) (l : list Watcher) : option (nat * Watcher) :=
  match l with
  | [] => None
  | g :: tl =>
      match w_done g with
      | Some d' => if Nat.eqb d d' then Some (i, g) else find_done d (S i) tl
      | None => find_done d (S i) tl
      end
  end.

(** [<-d] on a channel that is only ever closed: it returns at once when
    [d] is closed; otherwise the caller parks until the watcher that
    closes [d] has returned, which needs one of that watcher's branches to
    be ready.  [None]: the receive never returns. *)
Definition await (d : nat) (r : T) : option T :=
  if mem d (closed r) then Some r
  else match find_done d 0 (watchers r) with
       | None => None
       | Some (i, g) =>
           if mem (w_chan g) (buffered r) || done r (w_ctx g)
           then Some (wake i false r)
           else None
       end.

End Runtime.

(** ** os/signal *)

Module Signal.
Import GoContext.

(** The [stop] function [signal.NotifyContext] returns: it remembers the
    cancel function and the channel of its [signalCtx]. *)
Record stopper : Type := mkStopper {
  s_cancel : nat;
  s_chan : nat
}.

(** [signal.NotifyContext(parent, SIGTERM, SIGINT)]: derive a cancellable
    context, register a fresh channel, and unless the context is already
    done start the goroutine that cancels it when a signal arrives. *)
Definition NotifyContext (parent : Context) (r : Runtime.T)
  : Context * stopper * Runtime.T :=
  let '(ctx, cancel, r) := Runtime.WithCancel parent r in
  let '(ch, r) := Runtime.make_chan r in
  let r := Runtime.Notify ch r in
  let r := if Runtime.done r ctx then r
           else Runtime.go (Runtime.mkWatcher ch cancel ctx false None) r in
  (ctx, mkStopper cancel ch, r).

(** [func (c *signalCtx) stop() { c.cancel(); signal.Stop(c.ch) }]. *)
Definition stop (s : stopper) (r : Runtime.T) : Runtime.T :=
  Runtime.Stop (s_chan s) (Runtime.cancel (s_cancel s) r).

End Signal.

(** ** The process state and caller-supplied code *)

(** The process: the runtime above and the application state [A] that
    caller-supplied code (cleanup procedures, command bodies) acts on. *)
Record World (A : Type) : Type := mkWorld {
  rt : Runtime.T;
  app : A
}.
Arguments mkWorld {A} rt app.
Arguments rt {A} w.
Arguments app {A} w.

(** A caller-supplied [func()]: it can observe the runtime (is a signal
    still able to fire?) and acts on the application state; the bridge's
    channel and cancel function are private to the manager. *)
Definition Proc (A : Type) : Type := Runtime.T -> A -> run A.

(** The [func()] value of a caller-supplied procedure, as the manager
    calls it. *)
Definition call {A : Type} (f : Proc A) (w : World A) : run (World A) :=
  run_map (mkWorld (rt w)) (f (rt w) (app w)).

(** [for _, f := range fs { f() }]: the loop has no exit of its own; only a
    callee that does not return (a panic, a receive that parks for ever)
    ends it early. *)
Fixpoint range_call {S : Type} (fs : list (S -> run S)) (s : S) : run S :=
  match fs with
  | [] => Finished s
  | f :: rest =>
      match f s with
      | Finished s' => range_call rest s'
      | Aborted msg s' => Aborted msg s'
      | Blocked s' => Blocked s'
      end
  end.

(** ** cobra: the part of the command framework the manager configures *)

Module Cobra.

(** The fields of [cobra.Command] the manager sets or reads.  [verbose] is
    the parsed value of the persistent count flag [--verbose]/[-v]. *)
Record Command : Type := mkCommand {
  Use : string;
  Version : string;
  Short : string;
  ctx : option GoContext.Context;
  verbose : Z;
  errWriter : Logrus.Writer
}.

Definition Context (c : Command) : option GoContext.Context := ctx c.

Definition SetContext (c : Command) (x : GoContext.Context) : Command :=
  mkCommand (Use c) (Version c) (Short c) (Some x) (verbose c) (errWriter c).

(** [cmd.Flags().GetCount("verbose")]; the error result is dropped by
    every caller in this repository. *)
Definition GetCount (c : Command) : Z := verbose c.

Definition ErrOrStderr (c : Command) : Logrus.Writer := errWriter c.

Definition set_verbose (c : Command) (n : Z) : Command :=
  mkCommand (Use c) (Version c) (Short c) (ctx c) n (errWriter c).

(** What argument parsing yields for a run that selects a subcommand: how
    often [-v] was given and the subcommand's name. *)
Record Invocation : Type := mkInvocation {
  count : Z;
  target : string
}.

Section Tree.
Context {S A : Type}.

(** How a piece of caller-supplied code runs on the state [S] the hook
    works on. *)
Variable lift : Proc A -> S -> run S.

(** A registered subcommand and its [Run] body, which is caller-supplied
    code that is handed the command. *)
Record Sub : Type := mkSub {
  sub_cmd : Command;
  sub_Run : Command -> Proc A
}.

(** The root command, its [PersistentPreRunE] and its children. *)
Record Root : Type := mkRoot {
  root_cmd : Command;
  PersistentPreRunE : Command -> S -> panics (Command * S);
  commands : list Sub
}.

Definition AddCommand (t : Root) (cmds : list Sub) : Root :=
  mkRoot (root_cmd t) (PersistentPreRunE t) (commands t ++ cmds)%list.

Fixpoint find_sub (name : string) (l : list Sub) : option Sub :=
  match l with
  | [] => None
  | c :: tl => if String.eqb (Use (sub_cmd c)) name then Some c else find_sub name tl
  end.

Fixpoint store_sub (name : string) (cmd : Command) (l : list Sub) : list Sub :=
  match l with
  | [] => []
  | c :: tl =>
      if String.eqb (Use (sub_cmd c)) name
      then mkSub cmd (sub_Run c) :: tl
      else c :: store_sub name cmd tl
  end.

(** What [Execute] leaves behind: its error result, the command tree
    (commands keep the context set on them) and the state. *)
Record Executed : Type := mkExecuted {
  err : option string;
  tree : Root;
  state : S
}.

(** [Command.Execute] for a run that selects a subcommand, after
    cobra's [ExecuteC] and [execute]: the root's nil context becomes
    [context.Background()], the selected command inherits the root's
    context when it has none, its flags are parsed, the root's
    [PersistentPreRunE] runs on it, and then its [Run] body. *)
Definition Execute (t : Root) (inv : Invocation) (s : S) : run Executed :=
  let rootc := match ctx (root_cmd t) with
               | None => SetContext (root_cmd t) GoContext.Background
               | Some _ => root_cmd t
               end in
  match find_sub (target inv) (commands t) with
  | None =>
      Finished (mkExecuted (Some ("unknown command " ++ target inv)%string)
                           (mkRoot rootc (PersistentPreRunE t) (commands t)) s)
  | Some c =>
      let cmd := sub_cmd c in
      let cmd := match ctx cmd with
                 | None => mkCommand (Use cmd) (Version cmd) (Short cmd)
                                     (ctx rootc) (verbose cmd) (errWriter cmd)
                 | Some _ => cmd
                 end in
      let cmd := set_verbose cmd (count inv) in
      let keep cmd := mkRoot rootc (PersistentPreRunE t)
                             (store_sub (target inv) cmd (commands t)) in
      match PersistentPreRunE t cmd s with
      | Panicked msg => Aborted msg (mkExecuted None (keep cmd) s)
      | Returns (cmd, s) =>
          run_map (mkExecuted None (keep cmd)) (lift (sub_Run c cmd) s)
      end
  end.

End Tree.
Arguments Sub A : clear implicits.
Arguments Root S A : clear implicits.
Arguments Executed S A : clear implicits.

End Cobra.

(** ** commandline: the lifecycle manager

    The signal bridge is installed by [New], once, with
    [signal.NotifyContext]; its [stop] heads the cleanup chain. *)

Module Commandline.

Definition ContextModifiers : Type := GoContext.Context -> GoContext.Context.

Definition error : Type := string.

Section WithApp.
Context {A : Type}.

Record RootCommandOptions : Type := mkOptions {
  Name : string;
  Description : string;
  Version : string;
  Modifiers : list ContextModifiers;
  CleanupFuncs : list (Proc A)
}.

Definition validate (options : RootCommandOptions) : option error :=
  if String.eqb (Name options) "" then Some "root command must have name"
  else if String.eqb (Version options) "" then Some "root command must have version"
  else None.

Record CLI : Type := mkCLI {
  root : Cobra.Root (World A) A;
  cleanups : list (World A -> run (World A))
}.

(** The [switch verbosity] of the pre-run hook. *)
Definition level_of (verbosity : Z) : Logrus.Level :=
  match verbosity with
  | 1%Z => Logrus.InfoLevel
  | 2%Z => Logrus.DebugLevel
  | 3%Z => Logrus.TraceLevel
  | _ => Logrus.WarnLevel
  end.

(** The closure installed as the root's [PersistentPreRunE].
    [context.WithValue] panics on a nil parent.  Ranging over a nil slice
    does nothing, so the hook's test [options.Modifiers != nil] needs no
    branch of its own. *)
Definition PersistentPreRunE (options : RootCommandOptions)
           (cmd : Cobra.Command) (w : World A)
  : panics (Cobra.Command * World A) :=
  let verbosity := Cobra.GetCount cmd in
  let level := level_of verbosity in
  let logger := Logging.New (Cobra.ErrOrStderr cmd) level in
  match Cobra.Context cmd with
  | None => Panicked "cannot create context from nil parent"
  | Some parent =>
      let ctx := Logging.AddToContext parent logger in
      let ctx := fold_left (fun ctx modifier => modifier ctx) (Modifiers options) ctx in
      Returns (Cobra.SetContext cmd ctx, w)
  end.

(** The [stop] function as an element of the cleanup chain. *)
Definition stop_func (stop : Signal.stopper) (w : World A) : run (World A) :=
  Finished (mkWorld (Signal.stop stop (rt w)) (app w)).

(** [New]: the pair of a manager and an error, and the process it leaves.  The
    count flag it registers on the root is the [verbose] field of the
    commands. *)
Definition New (options : RootCommandOptions) (w : World A)
  : option CLI * option error * World A :=
  match validate options with
  | Some err => (None, Some err, w)
  | None =>
      let '(signalCtx, stop, r) := Signal.NotifyContext GoContext.Background (rt w) in
      let root := Cobra.mkRoot
                    (Cobra.mkCommand (Name options) (Version options) (Description options)
                                     None 0%Z Logrus.Stderr)
                    (PersistentPreRunE options) [] in
      let root := Cobra.mkRoot (Cobra.SetContext (Cobra.root_cmd root) signalCtx)
                               (Cobra.PersistentPreRunE root) (Cobra.commands root) in
      let allCleanups : list (World A -> run (World A)) := [] in
      let allCleanups := (allCleanups ++ [stop_func stop])%list in
      let allCleanups := (allCleanups ++ map call (CleanupFuncs options))%list in
      (Some (mkCLI root allCleanups), None, mkWorld r (app w))
  end.

Definition RegisterCommands (cr : CLI) (commands : list (Cobra.Sub A)) : CLI :=
  mkCLI (Cobra.AddCommand (root cr) commands) (cleanups cr).

Definition Cleanup (cr : CLI) (w : World A) : run (World A) :=
  range_call (cleanups cr) w.

(** [Execute]: cobra's result, with the command tree it leaves behind
    put back into the manager. *)
Definition Execute (cr : CLI) (inv : Cobra.Invocation) (w : World A)
  : run (option error * CLI * World A) :=
  let back (e : Cobra.Executed (World A) A) :=
    (Cobra.err e, mkCLI (Cobra.tree e) (cleanups cr), Cobra.state e) in
  run_map back (Cobra.Execute call (root cr) inv w).

(** *** The life of a manager

    What can happen to a constructed manager and its process, in any
    order and any number of times: the caller executes a command line,
    the framework fires the pre-run hook on some command, the operating
    system delivers a signal, the scheduler runs a background
    goroutine, the caller tears down. *)
Inductive Action : Type :=
| Register (commands : list (Cobra.Sub A))
| CallExecute (inv : Cobra.Invocation)
| FireHook (cmd : Cobra.Command)
| SignalArrives
| Schedule (i : nat) (prefer_signal : bool)
| CallCleanup.

Definition step (st : CLI * World A) (a : Action) : CLI * World A :=
  let '(cr, w) := st in
  match a with
  | Register commands => (RegisterCommands cr commands, w)
  | CallExecute inv =>
      let '(_, cr, w) := state_of (Execute cr inv w) in (cr, w)
  | FireHook cmd =>
      match Cobra.PersistentPreRunE (root cr) cmd w with
      | Returns (_, w) => (cr, w)
      | Panicked _ => (cr, w)
      end
  | SignalArrives => (cr, mkWorld (Runtime.deliver (rt w)) (app w))
  | Schedule i b => (cr, mkWorld (Runtime.wake i b (rt w)) (app w))
  | CallCleanup => (cr, state_of (Cleanup cr w))
  end.

Definition steps (st : CLI * World A) (acts : list Action) : CLI * World A :=
  fold_left step acts st.

End WithApp.
Arguments RootCommandOptions A : clear implicits.
Arguments CLI A : clear implicits.

End Commandline.

(** ** commandline, with the bridge set up by the pre-run hook

    The variant of the package whose [PersistentPreRunE] subscribes to the
    signals itself and whose internal cleanup is appended after the caller's
    procedures.  The closures [New] creates share the variables
    [cancelFunc] and [signalDone]. *)

Module CommandlineHookBridge.

Definition ContextModifiers : Type := GoContext.Context -> GoContext.Context.

Definition error : Type := string.

(** The variables captured by the hook (which assigns them) and by the
    internal cleanup (which reads them); [None] is nil. *)
Record Env : Type := mkEnv {
  cancelFunc : option nat;
  signalDone : option nat
}.

Section WithApp.
Context {A : Type}.

Record State : Type := mkState {
  world : World A;
  env : Env
}.

Record RootCommandOptions : Type := mkOptions {
  Name : string;
  Description : string;
  Version : string;
  Modifiers : list ContextModifiers;
  CleanupFuncs : list (Proc A)
}.

Definition validate (options : RootCommandOptions) : option error :=
  if String.eqb (Name options) "" then Some "root command must have name"
  else if String.eqb (Version options) "" then Some "root command must have version"
  else None.

Record CLI : Type := mkCLI {
  root : Cobra.Root State A;
  verbosity : Z;
  cleanups : list (State -> run State)
}.

Definition level_of (verbosity : Z) : Logrus.Level :=
  match verbosity with
  | 1%Z => Logrus.InfoLevel
  | 2%Z => Logrus.DebugLevel
  | 3%Z => Logrus.TraceLevel
  | _ => Logrus.WarnLevel
  end.

Definition PersistentPreRunE (options : RootCommandOptions)
           (cmd : Cobra.Command) (s : State)
  : panics (Cobra.Command * State) :=
  let verbosity := Cobra.GetCount cmd in
  let level := level_of verbosity in
  let logger := Logging.New (Cobra.ErrOrStderr cmd) level in
  match Cobra.Context cmd with
  | None => Panicked "cannot create context from nil parent"
  | Some parent =>
      let ctx := Logging.AddToContext parent logger in
      let ctx := fold_left (fun ctx modifierFunc => modifierFunc ctx) (Modifiers options) ctx in
      let '(ctx, cancel, r) := Runtime.WithCancel ctx (rt (world s)) in
      let cancelFunc := Some cancel in
      let '(done, r) := Runtime.make_chan r in
      let signalDone := Some done in
      let '(c, r) := Runtime.make_chan r in
      let r := Runtime.Notify c r in
      let r := Runtime.go (Runtime.mkWatcher c cancel ctx true (Some done)) r in
      Returns (Cobra.SetContext cmd ctx,
               mkState (mkWorld r (app (world s))) (mkEnv cancelFunc signalDone))
  end.

(** The internal cleanup closure, with its two nil guards. *)
Definition internal_cleanup (s : State) : run State :=
  let s := match cancelFunc (env s) with
           | Some cancel =>
               mkState (mkWorld (Runtime.cancel cancel (rt (world s))) (app (world s)))
                       (env s)
           | None => s
           end in
  match signalDone (env s) with
  | Some done =>
      match Runtime.await done (rt (world s)) with
      | Some r => Finished (mkState (mkWorld r (app (world s))) (env s))
      | None => Blocked s
      end
  | None => Finished s
  end.

(** A caller-supplied procedure as an element of the chain. *)
Definition user_func (f : Proc A) (s : State) : run State :=
  run_map (fun w => mkState w (env s)) (call f (world s)).

(** [New] declares [cancelFunc] and [signalDone], both nil. *)
Definition New (options : RootCommandOptions) (w : World A)
  : option CLI * option error * State :=
  match validate options with
  | Some err => (None, Some err, mkState w (mkEnv None None))
  | None =>
      let verbosity := 0%Z in
      let root := Cobra.mkRoot
                    (Cobra.mkCommand (Name options) (Version options) (Description options)
                                     None 0%Z Logrus.Stderr)
                    (PersistentPreRunE options) [] in
      let allCleanups := (map user_func (CleanupFuncs options) ++ [internal_cleanup])%list in
      (Some (mkCLI root verbosity allCleanups), None, mkState w (mkEnv None None))
  end.

Definition RegisterCommands (cr : CLI) (commands : list (Cobra.Sub A)) : CLI :=
  mkCLI (Cobra.AddCommand (root cr) commands) (verbosity cr) (cleanups cr).

Definition Cleanup (cr : CLI) (s : State) : run State :=
  range_call (cleanups cr) s.

Definition Execute (cr : CLI) (inv : Cobra.Invocation) (s : State)
  : run (option error * CLI * State) :=
  let back (e : Cobra.Executed State A) :=
    (Cobra.err e, mkCLI (Cobra.tree e) (verbosity cr) (cleanups cr), Cobra.state e) in
  run_map back (Cobra.Execute user_func (root cr) inv s).

End WithApp.
Arguments RootCommandOptions A : clear implicits.
Arguments CLI A : clear implicits.
Arguments State A : clear implicits.

End CommandlineHookBridge.

(** ** commandline/registry.go: no cleanup chain

    The hook subscribes to the signals itself, before the modifiers run, and
    nothing ever unsubscribes. *)

Module CommandlineRegistry.

Definition ContextModifiers : Type := GoContext.Context -> GoContext.Context.

Definition error : Type := string.

Section WithApp.
Context {A : Type}.

Record RootCommandOptions : Type := mkOptions {
  Name : string;
  Description : string;
  Version : string;
  Modifiers : list ContextModifiers
}.

Definition validate (options : RootCommandOptions) : option error :=
  if String.eqb (Name options) "" then Some "root command must have name"
  else if String.eqb (Version options) "" then Some "root command must have version"
  else None.

Record CLI : Type := mkCLI {
  root : Cobra.Root (World A) A;
  verbosity : Z
}.

Definition level_of (verbosity : Z) : Logrus.Level :=
  match verbosity with
  | 1%Z => Logrus.InfoLevel
  | 2%Z => Logrus.DebugLevel
  | 3%Z => Logrus.TraceLevel
  | _ => Logrus.WarnLevel
  end.

Definition PersistentPreRunE (options : RootCommandOptions)
           (cmd : Cobra.Command) (w : World A)
  : panics (Cobra.Command * World A) :=
  let verbosity := Cobra.GetCount cmd in
  let level := level_of verbosity in
  let logger := Logging.New (Cobra.ErrOrStderr cmd) level in
  match Cobra.Context cmd with
  | None => Panicked "cannot create context from nil parent"
  | Some parent =>
      let ctx := Logging.AddToContext parent logger in
      let '(ctx, cancel, r) := Runtime.WithCancel ctx (rt w) in
      let '(c, r) := Runtime.make_chan r in
      let r := Runtime.Notify c r in
      let r := Runtime.go (Runtime.mkWatcher c cancel ctx false None) r in
      let ctx := fold_left (fun ctx modifierFunc => modifierFunc ctx) (Modifiers options) ctx in
      Returns (Cobra.SetContext cmd ctx, mkWorld r (app w))
  end.

Definition New (options : RootCommandOptions) (w : World A)
  : option CLI * option error * World A :=
  match validate options with
  | Some err => (None, Some err, w)
  | None =>
      let verbosity := 0%Z in
      let root := Cobra.mkRoot
                    (Cobra.mkCommand (Name options) (Version options) (Description options)
                                     None 0%Z Logrus.Stderr)
                    (PersistentPreRunE options) [] in
      (Some (mkCLI root verbosity), None, w)
  end.

Definition RegisterCommands (cr : CLI) (commands : list (Cobra.Sub A)) : CLI :=
  mkCLI (Cobra.AddCommand (root cr) commands) (verbosity cr).

Definition Execute (cr : CLI) (inv : Cobra.Invocation) (w : World A)
  : run (option error * CLI * World A) :=
  let back (e : Cobra.Executed (World A) A) :=
    (Cobra.err e, mkCLI (Cobra.tree e) (verbosity cr), Cobra.state e) in
  run_map back (Cobra.Execute call (root cr) inv w).

End WithApp.
Arguments RootCommandOptions : clear implicits.
Arguments CLI A : clear implicits.

End CommandlineRegistry.

(** ** Vocabulary of the statements below *)

Module Terms.

(** What makes the binding of the root-dir key unusable: there is none,
    it holds a value that is no [fs.FS], or it holds the nil handle. *)
Definition is_fs (d : GoContext.Dyn) : bool :=
  match d with GoContext.DFS _ => true | _ => false end.

Definition unusable (b : option GoContext.any) : Prop :=
  b = None \/ (exists d, b = Some (Some d) /\ is_fs d = false) \/ b = Some None.

(** One runtime has no more subscriptions and no more goroutines than
    another, and subscribes no channel the other does not. *)
Definition no_more (r r' : Runtime.T) : Prop :=
  length (Runtime.handlers r') <= length (Runtime.handlers r)
  /\ incl (Runtime.handlers r') (Runtime.handlers r)
  /\ length (Runtime.watchers r') <= length (Runtime.watchers r).

(** A context modifier that stores one key/value pair. *)
Definition inserting (k : GoContext.Key) (v : GoContext.any)
  : GoContext.Context -> GoContext.Context :=
  fun ctx => GoContext.WithValue ctx k v.

(** A context modifier that leaves the binding of [k] as it found it. *)
Definition keeps (k : GoContext.Key) (m : GoContext.Context -> GoContext.Context) : Prop :=
  forall ctx, GoContext.Value (m ctx) k = GoContext.Value ctx k.

(** The context, the stop function and the runtime that
    [signal.NotifyContext(context.Background(), ...)] yields on the
    runtime [r]. *)
Definition signalCtx (r : Runtime.T) : GoContext.Context :=
  fst (fst (Signal.NotifyContext GoContext.Background r)).

Definition bridge (r : Runtime.T) : Signal.stopper :=
  snd (fst (Signal.NotifyContext GoContext.Background r)).

Definition installed (r : Runtime.T) : Runtime.T :=
  snd (Signal.NotifyContext GoContext.Background r).

Section WithApp.
Context {A : Type}.

(** A caller-supplied procedure that returns normally from every
    state. *)
Definition returns (f : Proc A) : Prop :=
  forall r a, exists a', f r a = Finished a'.

(** The application state after the procedures [fs] have all run, one
    after the other in list order, each seeing the runtime [r]. *)
Definition apps (fs : list (Proc A)) (r : Runtime.T) (a : A) : A :=
  fold_left (fun a f => state_of (f r a)) fs a.

(** What stays true of a manager built from [options] throughout its
    life: its hook and its cleanup chain are those [New] gave it. *)
Definition built_from (options : Commandline.RootCommandOptions A)
           (stp : Signal.stopper) (cr : Commandline.CLI A) : Prop :=
  Cobra.PersistentPreRunE (Commandline.root cr) = Commandline.PersistentPreRunE options
  /\ Commandline.cleanups cr
     = Commandline.stop_func stp :: map call (Commandline.CleanupFuncs options).


(** The reading of "every procedure runs unconditionally": whatever the
    caller's procedures do, after [Cleanup] the application state is the
    one all of them leave, run one after the other. *)
Definition Cleanup_runs_every_procedure : Prop :=
  forall (options : Commandline.RootCommandOptions A) w0 cr w1,
    Commandline.New options w0 = (Some cr, None, w1) ->
    Commandline.CleanupFuncs options <> [] ->
    app (state_of (Commandline.Cleanup cr w1))
    = apps (Commandline.CleanupFuncs options)
           (rt (state_of (Commandline.Cleanup cr w1))) (app w1).

(** The context the hook installs: the logger first, then the
    modifiers in registration order. *)
Definition hook_ctx (options : Commandline.RootCommandOptions A)
           (parent : GoContext.Context) (out : Logrus.Writer) (n : Z)
  : GoContext.Context :=
  fold_left (fun ctx modifier => modifier ctx) (Commandline.Modifiers options)
            (Logging.AddToContext parent
               (Logging.New out (Commandline.level_of n))).

End WithApp.

(** A context modifier that derives its result from its argument: every
    cancellation that reaches the argument reaches the result. *)
Definition extends (m : GoContext.Context -> GoContext.Context) : Prop :=
  forall ctx, incl (GoContext.cancels ctx) (GoContext.cancels (m ctx)).

(** The levels at which a logger still prints warnings. *)
Definition prints_warnings (l : Logrus.Level) : bool :=
  match l with
  | Logrus.WarnLevel | Logrus.InfoLevel | Logrus.DebugLevel | Logrus.TraceLevel => true
  | _ => false
  end.

(** The watcher goroutine [signal.NotifyContext] starts on the runtime
    [r]. *)
Definition bridge_watcher (r : Runtime.T) : Runtime.Watcher :=
  Runtime.mkWatcher (S (Runtime.fresh r)) (Runtime.fresh r)
                    (GoContext.cancelCtx GoContext.Background (Runtime.fresh r))
                    false None.

(** The watcher goroutine a firing of the hook starts on the runtime [r],
    in the variant whose hook sets up the bridge: [ctx] is the context the
    modifiers produced. *)
Definition hook_watcher (ctx : GoContext.Context) (r : Runtime.T) : Runtime.Watcher :=
  Runtime.mkWatcher (S (S (Runtime.fresh r))) (Runtime.fresh r)
                    (GoContext.cancelCtx ctx (Runtime.fresh r))
                    true (Some (S (Runtime.fresh r))).

(** The runtime a firing of that hook leaves, and the runtime the internal
    cleanup turns it into. *)
Definition fired_rt (ctx : GoContext.Context) (r : Runtime.T) : Runtime.T :=
  Runtime.mk (3 + Runtime.fresh r)
             (Runtime.add (2 + Runtime.fresh r) (Runtime.handlers r))
             (Runtime.buffered r)
             (Runtime.watchers r ++ [hook_watcher ctx r])
             (Runtime.cancelled r) (Runtime.closed r).

Definition joined_rt (r : Runtime.T) : Runtime.T :=
  Runtime.mk (3 + Runtime.fresh r) (Runtime.handlers r) (Runtime.buffered r)
             (Runtime.watchers r)
             (Runtime.add (Runtime.fresh r) (Runtime.cancelled r))
             (Runtime.add (1 + Runtime.fresh r) (Runtime.closed r)).

(** The chain [New] builds in that variant: the caller's procedures, then
    the internal cleanup. *)
Definition chained_from {A : Type} (options : CommandlineHookBridge.RootCommandOptions A)
           (cr : CommandlineHookBridge.CLI A) : Prop :=
  CommandlineHookBridge.cleanups cr
  = (map CommandlineHookBridge.user_func (CommandlineHookBridge.CleanupFuncs options)
       ++ [CommandlineHookBridge.internal_cleanup])%list.

(** What the scheduler and the operating system do to a process on their
    own: deliver a signal, or run a background goroutine. *)
Inductive Event : Type :=
| Delivers
| Runs (i : nat) (prefer_signal : bool).

Definition happen (r : Runtime.T) (e : Event) : Runtime.T :=
  match e with
  | Delivers => Runtime.deliver r
  | Runs i b => Runtime.wake i b r
  end.

(** The world after the hook of [registry.go] has fired on each of the
    commands [cmds] in turn; a firing that panics leaves the world as it
    was. *)
Fixpoint registry_fired {A : Type} (options : CommandlineRegistry.RootCommandOptions)
         (cmds : list Cobra.Command) (w : World A) : World A :=
  match cmds with
  | [] => w
  | cmd :: rest =>
      match CommandlineRegistry.PersistentPreRunE options cmd w with
      | Returns (_, w') => registry_fired options rest w'
      | Panicked _ => registry_fired options rest w
      end
  end.

(** No goroutine of the runtime unsubscribes its channel when it
    returns. *)
Definition never_stops (r : Runtime.T) : Prop :=
  Forall (fun g => Runtime.w_stop g = false) (Runtime.watchers r).

(** Every identity the runtime holds was handed out by its allocator. *)
Definition allocated (r : Runtime.T) : Prop :=
  Forall (fun c => c < Runtime.fresh r) (Runtime.handlers r)
  /\ Forall (fun c => c < Runtime.fresh r) (Runtime.buffered r)
  /\ Forall (fun c => c < Runtime.fresh r) (Runtime.cancelled r)
  /\ Forall (fun c => c < Runtime.fresh r) (Runtime.closed r)
  /\ Forall (fun g => Runtime.w_chan g < Runtime.fresh r
                      /\ Runtime.w_cancel g < Runtime.fresh r
                      /\ match Runtime.w_done g with
                         | Some d => d < Runtime.fresh r
                         | None => True
                         end)
            (Runtime.watchers r).

End Terms.

(** ** Concrete runs *)

Module Scenario.
Import GoContext Terms.

(** The application state of the runs below: a log of lines, like the
    [order] slice of the package's tests. *)
Definition Log : Type := list string.

(** A cleanup procedure that appends its label. *)
Definition note (label : string) : Proc Log :=
  fun _ log => Finished (log ++ [label])%list.

(** A cleanup procedure that also notes whether a signal subscription is
    still live when it runs. *)
Definition probe (label : string) : Proc Log :=
  fun r log =>
    Finished (log ++ [(label ++ match Runtime.handlers r with
                                | [] => ":released"
                                | _ :: _ => ":subscribed"
                                end)%string])%list.

Definition level_name (l : Logrus.Level) : string :=
  match l with
  | Logrus.PanicLevel => "panic"
  | Logrus.FatalLevel => "fatal"
  | Logrus.ErrorLevel => "error"
  | Logrus.WarnLevel => "warning"
  | Logrus.InfoLevel => "info"
  | Logrus.DebugLevel => "debug"
  | Logrus.TraceLevel => "trace"
  end.

(** A command body that notes the level of the logger it is handed. *)
Definition report_level (cmd : Cobra.Command) : Proc Log :=
  fun _ log =>
    match Cobra.Context cmd with
    | None => Aborted "nil context" log
    | Some ctx =>
        match Logging.FromContext ctx with
        | Returns logger => Finished (log ++ [level_name (Logrus.GetLevel logger)])%list
        | Panicked msg => Aborted msg log
        end
    end.

Definition test_cmd : Cobra.Command :=
  Cobra.mkCommand "test" "" "" None 0%Z Logrus.Stderr.

(** A process that has just started. *)
Definition start : World Log := mkWorld Runtime.init [].

Definition key1 : Key := StringKey "key1".
Definition key2 : Key := StringKey "key2".
Definition value1 : any := Some (DString "value1").
Definition value2 : any := Some (DString "value2").

(** Options as in the package's tests: two modifiers, two cleanups. *)
Definition demo : Commandline.RootCommandOptions Log :=
  Commandline.mkOptions "testcli" "" "1.0.0"
    [inserting key1 value1; inserting key2 value2]
    [probe "user1"; probe "user2"].

(** The manager and the process [New demo start] yields. *)
Definition demo_cli : Commandline.CLI Log :=
  Commandline.mkCLI
    (Cobra.mkRoot
       (Cobra.mkCommand "testcli" "1.0.0" "" (Some (signalCtx Runtime.init))
                        0%Z Logrus.Stderr)
       (Commandline.PersistentPreRunE demo) [])
    (Commandline.stop_func (bridge Runtime.init)
       :: map call (Commandline.CleanupFuncs demo)).

Definition demo_world : World Log := mkWorld (installed Runtime.init) [].

(** Options without a name. *)
Definition nameless : Commandline.RootCommandOptions Log :=
  Commandline.mkOptions "" "A test CLI application" "1.0.0" [] [note "user1"].

(** The same options for the variant whose hook sets up the bridge. *)
Definition demo_hook_bridge : CommandlineHookBridge.RootCommandOptions Log :=
  CommandlineHookBridge.mkOptions "testcli" "" "1.0.0"
    [inserting key1 value1; inserting key2 value2]
    [probe "user1"; probe "user2"].

Definition demo_hook_bridge_cli : CommandlineHookBridge.CLI Log :=
  CommandlineHookBridge.mkCLI
    (Cobra.mkRoot
       (Cobra.mkCommand "testcli" "1.0.0" "" None 0%Z Logrus.Stderr)
       (CommandlineHookBridge.PersistentPreRunE demo_hook_bridge) [])
    0%Z
    (map CommandlineHookBridge.user_func
         (CommandlineHookBridge.CleanupFuncs demo_hook_bridge)
       ++ [CommandlineHookBridge.internal_cleanup])%list.

Definition demo_hook_bridge_state : CommandlineHookBridge.State Log :=
  CommandlineHookBridge.mkState start (CommandlineHookBridge.mkEnv None None).

Definition demo_registry : CommandlineRegistry.RootCommandOptions :=
  CommandlineRegistry.mkOptions "testcli" "" "1.0.0"
    [inserting key1 value1; inserting key2 value2].

(** A command as the framework hands it to the hook on a first run: its
    context is the background context. *)
Definition running_cmd : Cobra.Command :=
  Cobra.mkCommand "test" "" "" (Some Background) 0%Z Logrus.Stderr.

(** A context that already holds a value, and a filesystem to add to it,
    as in the package's chaining test. *)
Definition chained : Context :=
  WithValue Background (StringKey "otherKey") (Some (DString "otherValue")).

Definition rootFS : Fs.FS := Some (Fs.MapFS [("file.txt", "content")]).

(** A life of the demo manager: a command is registered and run twice,
    the hook fires once more in between, a signal arrives, the watcher
    runs, the caller tears down. *)
Definition busy_life : list (Commandline.Action (A := Log)) :=
  [ Commandline.Register [Cobra.mkSub test_cmd report_level];
    Commandline.CallExecute (Cobra.mkInvocation 1 "test");
    Commandline.FireHook running_cmd;
    Commandline.CallExecute (Cobra.mkInvocation 2 "test");
    Commandline.SignalArrives;
    Commandline.Schedule 0 true;
    Commandline.CallCleanup ].


(** A second manager built in the process the demo manager lives in. *)
Definition second_cli : Commandline.CLI Log :=
  Commandline.mkCLI
    (Cobra.mkRoot
       (Cobra.mkCommand "testcli" "1.0.0" "" (Some (signalCtx (rt demo_world)))
                        0%Z Logrus.Stderr)
       (Commandline.PersistentPreRunE demo) [])
    (Commandline.stop_func (bridge (rt demo_world))
       :: map call (Commandline.CleanupFuncs demo)).

Definition second_world : World Log := mkWorld (installed (rt demo_world)) [].

(** With the bridge set up by the hook: the command and the state after
    one firing on [running_cmd], and after a second one. *)
Definition once_fired : Cobra.Command * CommandlineHookBridge.State Log :=
  match CommandlineHookBridge.PersistentPreRunE demo_hook_bridge running_cmd
          demo_hook_bridge_state with
  | Returns p => p
  | Panicked _ => (running_cmd, demo_hook_bridge_state)
  end.

Definition twice_fired : Cobra.Command * CommandlineHookBridge.State Log :=
  match CommandlineHookBridge.PersistentPreRunE demo_hook_bridge running_cmd
          (snd once_fired) with
  | Returns p => p
  | Panicked _ => once_fired
  end.

(** A cleanup procedure that panics. *)
Definition failing : Proc Log := fun _ log => Aborted "cleanup failed" log.

Definition demo_failing : CommandlineHookBridge.RootCommandOptions Log :=
  CommandlineHookBridge.mkOptions "testcli" "" "1.0.0" [] [note "user1"; failing].

(** Options whose first cleanup procedure panics, and the manager [New]
    builds from them in a process that has just started. *)
Definition demo_panicking : Commandline.RootCommandOptions Log :=
  Commandline.mkOptions "testcli" "" "1.0.0" [] [failing; note "user2"].

Definition panicking_cli : Commandline.CLI Log :=
  Commandline.mkCLI
    (Cobra.mkRoot
       (Cobra.mkCommand "testcli" "1.0.0" "" (Some (signalCtx Runtime.init))
                        0%Z Logrus.Stderr)
       (Commandline.PersistentPreRunE demo_panicking) [])
    (Commandline.stop_func (bridge Runtime.init)
       :: map call (Commandline.CleanupFuncs demo_panicking)).

End Scenario.

(** * Properties *)

(** ** Contexts *)

Module ContextFacts.
Import GoContext.

Lemma key_eqb_refl (k : Key) : key_eqb k k = true.
Proof. destruct k; simpl; apply String.eqb_refl. Qed.

Lemma key_eqb_eq (a b : Key) : key_eqb a b = true <-> a = b.
Proof.
  split.
  - destruct a, b; simpl; intro H; try discriminate;
      apply String.eqb_eq in H; now subst.
  - intros ->. apply key_eqb_refl.
Qed.

Lemma key_eqb_neq (a b : Key) : a <> b -> key_eqb a b = false.
Proof.
  intro H. destruct (key_eqb a b) eqn:E; [|reflexivity].
  apply key_eqb_eq in E. contradiction.
Qed.

(** [Value] is the binding found, and nil when there is none. *)
Lemma Value_binding (ctx : Context) (k : Key) :
  Value ctx k = match binding ctx k with Some v => v | None => None end.
Proof.
  induction ctx as [|p IH k' v|p IH id]; simpl; auto.
  destruct (key_eqb k' k); auto.
Qed.

Lemma Value_WithValue_same (ctx : Context) (k : Key) (v : any) :
  Value (WithValue ctx k v) k = v.
Proof. simpl. now rewrite key_eqb_refl. Qed.

Lemma Value_WithValue_other (ctx : Context) (k k' : Key) (v : any) :
  k <> k' -> Value (WithValue ctx k v) k' = Value ctx k'.
Proof. intro H. simpl. now rewrite (key_eqb_neq _ _ H). Qed.

End ContextFacts.

(** ** fileutils *)

Module FileutilsFacts.
Import GoContext Fileutils ContextFacts Terms.

Lemma RootDirFromContext_binding (ctx : Context) :
  RootDirFromContext ctx =
  match binding ctx rootDirKey with
  | Some (Some (DFS f)) => Returns (Some f)
  | _ => Panicked no_root_dir
  end.
Proof.
  unfold RootDirFromContext. rewrite Value_binding.
  destruct (binding ctx rootDirKey) as [[[s|l|f]|]|]; reflexivity.
Qed.

(** The nil test of the later variant never fires on its own: a type
    assertion that succeeds yields a non-nil interface value. *)
Lemma nilcheck_redundant (ctx : Context) :
  RootDirFromContext_nilcheck ctx = RootDirFromContext ctx.
Proof.
  unfold RootDirFromContext_nilcheck, RootDirFromContext.
  destruct (Value ctx rootDirKey) as [[s|l|f]|]; reflexivity.
Qed.

(** C9: storing a non-nil filesystem handle and reading it back returns
    exactly that handle (with either form of the reader), and whatever the
    context held under any other key is still returned unchanged by the
    derived context. *)
Theorem rootdir_roundtrip (ctx : Context) (f : Fs.FS) :
  f <> None ->
  RootDirFromContext (ApplyRootDirToContext ctx f) = Returns f
  /\ RootDirFromContext_nilcheck (ApplyRootDirToContext ctx f) = Returns f
  /\ (forall k, k <> rootDirKey ->
        Value (ApplyRootDirToContext ctx f) k = Value ctx k
        /\ binding (ApplyRootDirToContext ctx f) k = binding ctx k).
Proof.
  intro Hf. destruct f as [impl|]; [clear Hf|contradiction].
  assert (R : RootDirFromContext (ApplyRootDirToContext ctx (Some impl))
              = Returns (Some impl)) by reflexivity.
  split; [exact R|]. split; [now rewrite nilcheck_redundant|].
  intros k Hk. unfold ApplyRootDirToContext, WithValue. cbn [Value binding].
  rewrite key_eqb_neq by congruence. split; reflexivity.
Qed.

(** C10: [ApplyRootDirToContext] stores whatever handle it is given, the
    nil handle included, and [RootDirFromContext] (in either form) panics
    exactly when the root-dir key has no binding, is bound to a value of
    another type, or is bound to nil; so a stored nil handle cannot be
    read back. *)
Theorem rootdir_panics_iff :
  (forall ctx f, binding (ApplyRootDirToContext ctx f) rootDirKey = Some (fs_to_any f))
  /\ (forall ctx,
        (RootDirFromContext ctx = Panicked no_root_dir
         <-> unusable (binding ctx rootDirKey))
        /\ (RootDirFromContext_nilcheck ctx = Panicked no_root_dir
            <-> unusable (binding ctx rootDirKey))
        /\ (~ unusable (binding ctx rootDirKey) ->
            exists f, RootDirFromContext ctx = Returns (Some f)
                      /\ RootDirFromContext_nilcheck ctx = Returns (Some f)))
  /\ (forall ctx,
        RootDirFromContext (ApplyRootDirToContext ctx None) = Panicked no_root_dir
        /\ RootDirFromContext_nilcheck (ApplyRootDirToContext ctx None)
           = Panicked no_root_dir).
Proof.
  assert (P : forall ctx,
             RootDirFromContext ctx = Panicked no_root_dir
             <-> unusable (binding ctx rootDirKey)).
  { intro ctx. rewrite RootDirFromContext_binding. unfold unusable.
    destruct (binding ctx rootDirKey) as [[[s|l|f]|]|]; split; intro H;
      try reflexivity; try discriminate; auto.
    - right. left. eexists. split; [reflexivity|reflexivity].
    - right. left. eexists. split; [reflexivity|reflexivity].
    - destruct H as [H|[[d [H E]]|H]]; try discriminate.
      inversion H; subst. discriminate. }
  split; [|split].
  - intros ctx f. unfold ApplyRootDirToContext, WithValue. simpl. reflexivity.
  - intro ctx. split; [apply P|]. split; [rewrite nilcheck_redundant; apply P|].
    intro H. rewrite nilcheck_redundant, RootDirFromContext_binding.
    destruct (binding ctx rootDirKey) as [[[s|l|f]|]|] eqn:E.
    + exfalso. apply H. right. left. eexists. split; reflexivity.
    + exfalso. apply H. right. left. eexists. split; reflexivity.
    + exists f. split; reflexivity.
    + exfalso. apply H. right. right. reflexivity.
    + exfalso. apply H. left. reflexivity.
  - intro ctx. split; reflexivity.
Qed.

End FileutilsFacts.

(** ** The runtime *)

Module RuntimeFacts.
Import Runtime Terms.

Lemma length_remove (n : nat) (l : list nat) : length (remove n l) <= length l.
Proof. unfold remove. apply filter_length_le. Qed.

Lemma incl_remove (n : nat) (l : list nat) : incl (remove n l) l.
Proof. unfold remove. apply incl_filter. Qed.

Lemma mem_In (n : nat) (l : list nat) : mem n l = true <-> In n l.
Proof.
  unfold mem. rewrite existsb_exists. split.
  - intros [x [Hx E]]. apply Nat.eqb_eq in E. now subst.
  - intro H. exists n. split; [assumption|apply Nat.eqb_refl].
Qed.

Lemma remove_not_In (n : nat) (l : list nat) : ~ In n (remove n l).
Proof.
  unfold remove. rewrite filter_In. intros [_ H].
  now rewrite Nat.eqb_refl in H.
Qed.


Lemma length_add (n : nat) (l : list nat) : length (add n l) <= S (length l).
Proof. unfold add. destruct (mem n l); simpl; lia. Qed.

Lemma mem_add (n : nat) (l : list nat) : mem n (add n l) = true.
Proof.
  unfold add. destruct (mem n l) eqn:E; [assumption|].
  unfold mem. simpl. now rewrite Nat.eqb_refl.
Qed.


Lemma length_drop_nth {X : Type} (i : nat) (l : list X) :
  length (drop_nth i l) <= length l.
Proof.
  revert i. induction l as [|x l IH]; intros [|i]; simpl; try lia.
  specialize (IH i). lia.
Qed.

Lemma no_more_refl (r : T) : no_more r r.
Proof. repeat split; auto using incl_refl. Qed.

Lemma no_more_trans (a b c : T) : no_more a b -> no_more b c -> no_more a c.
Proof.
  intros (H1 & H2 & H3) (K1 & K2 & K3). repeat split; try lia.
  eapply incl_tran; eassumption.
Qed.

Lemma no_more_cancel (id : nat) (r : T) : no_more r (cancel id r).
Proof. repeat split; simpl; auto using incl_refl. Qed.

Lemma no_more_Stop (c : nat) (r : T) : no_more r (Stop c r).
Proof. repeat split; simpl; auto using length_remove, incl_remove. Qed.

Lemma no_more_close (c : nat) (r : T) : no_more r (close c r).
Proof. repeat split; simpl; auto using incl_refl. Qed.

Lemma no_more_deliver (r : T) : no_more r (deliver r).
Proof. repeat split; simpl; auto using incl_refl. Qed.

Lemma no_more_leave (i : nat) (g : Watcher) (r : T) : no_more r (leave i g r).
Proof.
  unfold leave.
  set (r1 := mk _ _ _ (drop_nth i (watchers r)) _ _).
  assert (H1 : no_more r r1).
  { repeat split; simpl; auto using incl_refl, length_drop_nth. }
  assert (H2 : no_more r (if w_stop g then Stop (w_chan g) r1 else r1)).
  { destruct (w_stop g); [|assumption].
    eapply no_more_trans; [exact H1|apply no_more_Stop]. }
  destruct (w_done g); [|assumption].
  eapply no_more_trans; [exact H2|apply no_more_close].
Qed.

Lemma no_more_take_signal (i : nat) (g : Watcher) (r : T) :
  no_more r (take_signal i g r).
Proof.
  unfold take_signal.
  eapply no_more_trans; [|apply no_more_leave].
  repeat split; simpl; auto using incl_refl.
Qed.

Lemma no_more_wake (i : nat) (b : bool) (r : T) : no_more r (wake i b r).
Proof.
  unfold wake. destruct (nth_error (watchers r) i) as [g|]; [|apply no_more_refl].
  destruct (mem (w_chan g) (buffered r) && (b || negb (done r (w_ctx g)))).
  - apply no_more_take_signal.
  - destruct (done r (w_ctx g)); [apply no_more_leave|apply no_more_refl].
Qed.

End RuntimeFacts.

Module SignalFacts.
Import Runtime RuntimeFacts Terms.

Lemma no_more_stop (s : Signal.stopper) (r : T) : no_more r (Signal.stop s r).
Proof.
  unfold Signal.stop.
  eapply no_more_trans; [apply no_more_cancel|apply no_more_Stop].
Qed.


(** After [stop] the bridge's channel is not subscribed and its context
    is cancelled. *)
Lemma stop_releases (s : Signal.stopper) (r : T) :
  mem (Signal.s_chan s) (handlers (Signal.stop s r)) = false
  /\ mem (Signal.s_cancel s) (cancelled (Signal.stop s r)) = true.
Proof.
  unfold Signal.stop. simpl. split.
  - destruct (mem _ _) eqn:E; [|reflexivity].
    apply mem_In in E. now apply remove_not_In in E.
  - apply mem_add.
Qed.

(** [signal.NotifyContext] subscribes one channel and starts at most one
    goroutine. *)
Lemma NotifyContext_one (parent : GoContext.Context) (r : T) :
  let '(_, _, r') := Signal.NotifyContext parent r in
  length (handlers r') <= S (length (handlers r))
  /\ length (watchers r') <= S (length (watchers r)).
Proof.
  unfold Signal.NotifyContext, WithCancel, make_chan. simpl.
  match goal with |- context [if ?c then _ else _] => destruct c end; simpl.
  - split; [apply length_add|lia].
  - rewrite length_app. simpl. split; [apply length_add|lia].
Qed.

End SignalFacts.

(** ** The lifecycle manager *)

Module CommandlineFacts.
Import Commandline Terms.

Section WithApp.
Context {A : Type}.
Implicit Types (options : RootCommandOptions A) (w : World A) (cr : CLI A).

Lemma validate_cases options :
  (Name options = "" /\ validate options = Some "root command must have name")
  \/ (Name options <> "" /\ Version options = ""
      /\ validate options = Some "root command must have version")
  \/ (Name options <> "" /\ Version options <> "" /\ validate options = None).
Proof.
  unfold validate.
  destruct (String.eqb_spec (Name options) "") as [En|En]; [now left|].
  destruct (String.eqb_spec (Version options) "") as [Ev|Ev].
  - right. left. auto.
  - right. right. auto.
Qed.

(** What [New] returns for valid options. *)
Lemma New_valid options w :
  validate options = None ->
  exists rootc,
    New options w =
    (Some (mkCLI (Cobra.mkRoot rootc (PersistentPreRunE options) [])
                 (stop_func (bridge (rt w)) :: map call (CleanupFuncs options))),
     None, mkWorld (installed (rt w)) (app w))
    /\ Cobra.ctx rootc = Some (signalCtx (rt w)).
Proof.
  intro V. unfold New. rewrite V.
  unfold bridge, installed, signalCtx.
  destruct (Signal.NotifyContext GoContext.Background (rt w)) as [[c s] r] eqn:E.
  simpl. eexists. split; reflexivity.
Qed.

Lemma New_Some options w cr e w' :
  New options w = (Some cr, e, w') -> validate options = None.
Proof.
  unfold New. destruct (validate options); [discriminate|reflexivity].
Qed.

(** C4: construction fails exactly when the name or the version is
    empty, the error says which of the two is missing (the name, when
    both are), and with both set it succeeds whatever the description,
    the modifiers and the cleanup procedures are. *)
Theorem New_fails_iff_field_missing options w :
  let '(cli, err, _) := New options w in
  ((cli = None /\ err <> None) <-> (Name options = "" \/ Version options = ""))
  /\ (Name options = "" -> err = Some "root command must have name")
  /\ (Name options <> "" -> Version options = "" ->
      err = Some "root command must have version")
  /\ (Name options <> "" -> Version options <> "" -> cli <> None /\ err = None).
Proof.
  destruct (validate_cases options) as [[En V]|[(En & Ev & V)|(En & Ev & V)]].
  - unfold New. rewrite V. repeat split; intros; try congruence; auto.
  - unfold New. rewrite V. repeat split; intros; try congruence; auto.
  - destruct (New_valid options w V) as (rootc & -> & _).
    repeat split; intros; try congruence; try tauto.
Qed.

(** C7: when validation fails, [New] returns no manager and exactly the
    validation error, and the process is as it was: no channel has been
    subscribed and no goroutine started. *)
Theorem New_invalid_no_effect options w e :
  validate options = Some e -> New options w = (None, Some e, w).
Proof. intro V. unfold New. now rewrite V. Qed.

(** *** The signal bridge *)

Lemma call_rt (f : Proc A) w : rt (state_of (call f w)) = rt w.
Proof. unfold call. destruct (f (rt w) (app w)); reflexivity. Qed.

Lemma range_call_users_rt (fs : list (Proc A)) w :
  rt (state_of (range_call (map call fs) w)) = rt w.
Proof.
  revert w. induction fs as [|f fs IH]; intro w; simpl; [reflexivity|].
  pose proof (call_rt f w) as H.
  destruct (call f w) as [w'|msg w'|w']; simpl in *; [|assumption|assumption].
  now rewrite IH.
Qed.

(** The hook only reads the command: the process is as it was. *)
Lemma PersistentPreRunE_pure options cmd w cmd' w' :
  PersistentPreRunE options cmd w = Returns (cmd', w') -> w' = w.
Proof.
  unfold PersistentPreRunE. destruct (Cobra.Context cmd); [|discriminate].
  intro H. now inversion H.
Qed.

Lemma Cleanup_built options stp cr w :
  built_from options stp cr ->
  Cleanup cr w =
  range_call (map call (CleanupFuncs options))
             (mkWorld (Signal.stop stp (rt w)) (app w)).
Proof. intros [_ C]. unfold Cleanup. rewrite C. reflexivity. Qed.

Lemma Execute_built options stp cr inv w :
  built_from options stp cr ->
  let '(_, cr', w') := state_of (Execute cr inv w) in
  built_from options stp cr' /\ rt w' = rt w.
Proof.
  intros [H C]. unfold Execute, Cobra.Execute.
  destruct (Cobra.find_sub (Cobra.target inv) (Cobra.commands (root cr))) as [c|];
    [|simpl; repeat split; assumption].
  rewrite H.
  match goal with
  | |- context [PersistentPreRunE options ?c w] =>
      destruct (PersistentPreRunE options c w) as [[cmd' w']|msg] eqn:E
  end; [|simpl; repeat split; assumption].
  apply PersistentPreRunE_pure in E. subst w'.
  pose proof (call_rt (Cobra.sub_Run c cmd') w) as R.
  destruct (call (Cobra.sub_Run c cmd') w) as [w'|msg w'|w']; simpl in *;
    repeat split; assumption.
Qed.

Lemma step_built options stp cr w a :
  built_from options stp cr ->
  let '(cr', w') := step (cr, w) a in
  built_from options stp cr' /\ no_more (rt w) (rt w').
Proof.
  intro B. destruct a as [cmds|inv|cmd| |i b|]; simpl.
  - split; [|apply RuntimeFacts.no_more_refl].
    destruct B as [H C]. split; assumption.
  - pose proof (Execute_built options stp cr inv w B) as E.
    destruct (state_of (Execute cr inv w)) as [[e cr'] w'].
    destruct E as [E1 E2]. split; [assumption|].
    rewrite E2. apply RuntimeFacts.no_more_refl.
  - destruct B as [H C]. rewrite H.
    destruct (PersistentPreRunE options cmd w) as [[cmd' w']|msg] eqn:E.
    + apply PersistentPreRunE_pure in E. subst.
      split; [split; assumption|apply RuntimeFacts.no_more_refl].
    + split; [split; assumption|apply RuntimeFacts.no_more_refl].
  - split; [assumption|apply RuntimeFacts.no_more_deliver].
  - split; [assumption|apply RuntimeFacts.no_more_wake].
  - split; [assumption|].
    rewrite (Cleanup_built options stp cr w B), range_call_users_rt. simpl.
    apply SignalFacts.no_more_stop.
Qed.

Lemma steps_built options stp acts : forall cr w,
  built_from options stp cr ->
  let '(cr', w') := steps (cr, w) acts in
  built_from options stp cr' /\ no_more (rt w) (rt w').
Proof.
  induction acts as [|a acts IH]; intros cr w B.
  - simpl. split; [assumption|apply RuntimeFacts.no_more_refl].
  - change (steps (cr, w) (a :: acts)) with (steps (step (cr, w) a) acts).
    pose proof (step_built options stp cr w a B) as S1.
    destruct (step (cr, w) a) as [cr1 w1]. destruct S1 as [B1 N1].
    specialize (IH cr1 w1 B1).
    destruct (steps (cr1, w1) acts) as [cr2 w2].
    destruct IH as [B2 N2]. split; [assumption|].
    eapply RuntimeFacts.no_more_trans; eassumption.
Qed.

Lemma New_built options w0 cr w1 :
  New options w0 = (Some cr, None, w1) ->
  built_from options (bridge (rt w0)) cr /\ w1 = mkWorld (installed (rt w0)) (app w0).
Proof.
  intro N. pose proof (New_Some _ _ _ _ _ N) as V.
  destruct (New_valid options w0 V) as (rootc & E & _).
  rewrite E in N. inversion N; subst. repeat split.
Qed.

(** C1: a manager built in a freshly started process holds exactly one
    signal subscription and one watching goroutine once [New] has
    returned; a firing of the pre-run hook leaves the process as it
    was; and whatever happens afterwards, in any order and any number
    of times (commands registered, command lines executed, the hook
    fired on any command, signals delivered, goroutines scheduled,
    teardown), the process never holds more than that one subscription
    nor more than that one goroutine, and never subscribes a channel
    other than the bridge's. *)
Theorem single_signal_bridge options (a0 : A) cr w1 :
  New options (mkWorld Runtime.init a0) = (Some cr, None, w1) ->
  Runtime.handlers (rt w1) = [Signal.s_chan (bridge Runtime.init)]
  /\ length (Runtime.watchers (rt w1)) = 1
  /\ (forall cmd w cmd' w',
         Cobra.PersistentPreRunE (root cr) cmd w = Returns (cmd', w') -> w' = w)
  /\ (forall acts,
         let w' := snd (steps (cr, w1) acts) in
         length (Runtime.handlers (rt w')) <= 1
         /\ incl (Runtime.handlers (rt w')) [Signal.s_chan (bridge Runtime.init)]
         /\ length (Runtime.watchers (rt w')) <= 1).
Proof.
  intro N. destruct (New_built _ _ _ _ N) as [B ->]. cbn [rt app] in *.
  split; [reflexivity|]. split; [reflexivity|]. split.
  - intros cmd w cmd' w'. destruct B as [H _]. rewrite H.
    apply PersistentPreRunE_pure.
  - intro acts.
    pose proof (steps_built options _ acts cr
                  (mkWorld (installed Runtime.init) a0) B) as S.
    destruct (steps (cr, mkWorld (installed Runtime.init) a0) acts) as [cr' w'].
    destruct S as [_ (L & I & G)]. simpl in *. repeat split; assumption.
Qed.

(** In a process that already holds subscriptions the manager adds at
    most one to them, at construction, and none later. *)
Lemma bridge_adds_at_most_one options w0 cr w1 acts :
  New options w0 = (Some cr, None, w1) ->
  let w' := snd (steps (cr, w1) acts) in
  length (Runtime.handlers (rt w')) <= S (length (Runtime.handlers (rt w0)))
  /\ length (Runtime.watchers (rt w')) <= S (length (Runtime.watchers (rt w0))).
Proof.
  intro N. destruct (New_built _ _ _ _ N) as [B ->].
  pose proof (steps_built options _ acts cr
                (mkWorld (installed (rt w0)) (app w0)) B) as S.
  destruct (steps (cr, mkWorld (installed (rt w0)) (app w0)) acts) as [cr' w'].
  destruct S as [_ (L & _ & G)]. simpl in *.
  pose proof (SignalFacts.NotifyContext_one GoContext.Background (rt w0)) as O.
  unfold installed in *.
  destruct (Signal.NotifyContext GoContext.Background (rt w0)) as [[c s] r].
  simpl in *. lia.
Qed.

(** *** The cleanup chain *)

Lemma range_call_returns (fs : list (Proc A)) w :
  Forall returns fs ->
  range_call (map call fs) w = Finished (mkWorld (rt w) (apps fs (rt w) (app w))).
Proof.
  intro F. revert w. induction F as [|f fs Hf F IH]; intro w.
  - destruct w; reflexivity.
  - simpl. unfold call at 1. destruct (Hf (rt w) (app w)) as [a' E].
    rewrite E. cbn [run_map]. rewrite IH. reflexivity.
Qed.

Lemma bridge_subscribed (r : Runtime.T) :
  In (Signal.s_chan (bridge r)) (Runtime.handlers (installed r)).
Proof.
  unfold bridge, installed, Signal.NotifyContext, Runtime.WithCancel, Runtime.make_chan.
  simpl.
  match goal with |- context [if ?c then _ else _] => destruct c end; simpl;
    apply RuntimeFacts.mem_In, RuntimeFacts.mem_add.
Qed.

Lemma Cleanup_returns options stp cr w :
  built_from options stp cr ->
  Forall returns (CleanupFuncs options) ->
  Cleanup cr w =
  Finished (mkWorld (Signal.stop stp (rt w))
                    (apps (CleanupFuncs options) (Signal.stop stp (rt w)) (app w))).
Proof.
  intros B F. rewrite (Cleanup_built _ _ _ w B).
  now rewrite (range_call_returns _ _ F).
Qed.

(** A caller procedure that panics ends the loop: the procedures before
    it have run, the ones after it have not. *)
Lemma range_call_panics (pre post : list (Proc A)) (f : Proc A) w msg a' :
  Forall returns pre ->
  f (rt w) (apps pre (rt w) (app w)) = Aborted msg a' ->
  range_call (map call (pre ++ f :: post)) w = Aborted msg (mkWorld (rt w) a').
Proof.
  intro F. revert w. induction F as [|g pre Hg F IH]; intros w E.
  - cbn [Datatypes.app map range_call]. unfold call. cbn [apps fold_left] in E.
    rewrite E. reflexivity.
  - cbn [Datatypes.app map range_call]. unfold call at 1.
    destruct (Hg (rt w) (app w)) as [a1 E1]. rewrite E1. cbn [run_map].
    apply (IH (mkWorld (rt w) a1)). cbn [rt app].
    unfold apps in E. cbn [fold_left] in E. rewrite E1 in E. exact E.
Qed.

(** C2, as the code has it: the chain [New] builds is the bridge's [stop]
    followed by the caller's procedures in registration order, and [stop]
    is the teardown of the subscription [New] installed.  So [Cleanup]
    first releases the bridge, whatever the caller's procedures do, and
    only then enters them, each finding the bridge's channel unsubscribed.
    The loop has no exit and no recovery of its own: a procedure runs
    when those before it have returned.  When every caller procedure
    returns, all of them have run, in that order; when one of them panics,
    the panic ends [Cleanup] there and the procedures after it do not
    run. *)
Theorem Cleanup_releases_bridge_first options w0 cr w1 :
  New options w0 = (Some cr, None, w1) ->
  let stp := bridge (rt w0) in
  cleanups cr = stop_func stp :: map call (CleanupFuncs options)
  /\ In (Signal.s_chan stp) (Runtime.handlers (rt w1))
  /\ (forall w,
         let released := Signal.stop stp (rt w) in
         Cleanup cr w =
         range_call (map call (CleanupFuncs options)) (mkWorld released (app w))
         /\ Runtime.mem (Signal.s_chan stp) (Runtime.handlers released) = false
         /\ rt (state_of (Cleanup cr w)) = released
         /\ (Forall returns (CleanupFuncs options) ->
             Cleanup cr w =
             Finished (mkWorld released
                               (apps (CleanupFuncs options) released (app w))))
         /\ (forall pre f post msg a',
                CleanupFuncs options = (pre ++ f :: post)%list ->
                Forall returns pre ->
                f released (apps pre released (app w)) = Aborted msg a' ->
                Cleanup cr w = Aborted msg (mkWorld released a'))).
Proof.
  intro N. destruct (New_built _ _ _ _ N) as [B ->]. cbn zeta.
  split; [apply B|]. split; [apply bridge_subscribed|].
  intro w. rewrite (Cleanup_built _ _ _ w B).
  split; [reflexivity|]. split; [apply SignalFacts.stop_releases|].
  split; [apply range_call_users_rt|]. split.
  - intro F. rewrite <- (Cleanup_built _ _ _ w B). now apply Cleanup_returns.
  - intros pre f post msg a' E F P. rewrite E.
    apply (range_call_panics pre post f
             (mkWorld (Signal.stop (bridge (rt w0)) (rt w)) (app w)) msg a' F P).
Qed.


(** *** The pre-run hook and what the command body is handed *)

Lemma PersistentPreRunE_context options cmd w parent :
  Cobra.Context cmd = Some parent ->
  PersistentPreRunE options cmd w =
  Returns (Cobra.SetContext cmd
             (hook_ctx options parent (Cobra.ErrOrStderr cmd) (Cobra.GetCount cmd)),
           w).
Proof. intro H. unfold PersistentPreRunE. rewrite H. reflexivity. Qed.

(** [Execute] on a manager fresh from [New] with one newly registered
    command that the command line selects: the body runs on the command
    with the hook's context set on it. *)
Lemma Execute_fresh options w0 cr w1 (cmd0 : Cobra.Command)
      (body : Cobra.Command -> Proc A) inv w :
  New options w0 = (Some cr, None, w1) ->
  Cobra.Use cmd0 = Cobra.target inv ->
  Cobra.ctx cmd0 = None ->
  let cmd' :=
    Cobra.SetContext
      (Cobra.set_verbose cmd0 (Cobra.count inv))
      (hook_ctx options (signalCtx (rt w0)) (Cobra.errWriter cmd0) (Cobra.count inv)) in
  exists cr',
    Execute (RegisterCommands cr [Cobra.mkSub cmd0 body]) inv w =
    run_map (fun w' => (None, cr', w')) (call (body cmd') w).
Proof.
  intros N U C. pose proof (New_Some _ _ _ _ _ N) as V.
  destruct (New_valid options w0 V) as (rootc & E & R).
  rewrite E in N. inversion N; subst cr w1. clear N E.
  unfold Execute, RegisterCommands, Cobra.Execute, Cobra.AddCommand.
  cbn [root cleanups Cobra.root_cmd Cobra.PersistentPreRunE Cobra.commands
       Datatypes.app Cobra.find_sub Cobra.sub_cmd Cobra.sub_Run].
  rewrite R, U, String.eqb_refl.
  cbn [Cobra.sub_cmd Cobra.sub_Run].
  rewrite C, ?R.
  erewrite PersistentPreRunE_context by reflexivity.
  cbn [Cobra.ErrOrStderr Cobra.GetCount Cobra.set_verbose Cobra.errWriter Cobra.verbose].
  destruct (call _ w); eexists; reflexivity.
Qed.

Lemma fold_keeps (k : GoContext.Key) (ms : list ContextModifiers) :
  Forall (keeps k) ms ->
  forall ctx, GoContext.Value (fold_left (fun ctx m => m ctx) ms ctx) k
              = GoContext.Value ctx k.
Proof.
  induction 1 as [|m ms Hm F IH]; intro ctx; simpl; [reflexivity|].
  now rewrite IH, Hm.
Qed.

(** With modifiers that leave the logger alone, the logger found in the
    hook's context is the one derived from the verbosity count. *)
Lemma hook_ctx_logger options parent out n :
  Forall (keeps Logging.contextKey) (Modifiers options) ->
  Logging.FromContext (hook_ctx options parent out n)
  = Returns (Logging.New out (level_of n)).
Proof.
  intro F. unfold Logging.FromContext, hook_ctx. rewrite (fold_keeps _ _ F).
  reflexivity.
Qed.

Lemma level_of_table (n : Z) :
  level_of n =
  if (n =? 1)%Z then Logrus.InfoLevel
  else if (n =? 2)%Z then Logrus.DebugLevel
  else if (n =? 3)%Z then Logrus.TraceLevel
  else Logrus.WarnLevel.
Proof.
  destruct n as [|p|p]; try reflexivity.
  destruct p as [[p|p|]|[p|p|]|]; reflexivity.
Qed.

End WithApp.

End CommandlineFacts.

(** ** The variant whose hook sets up the bridge *)

Module HookBridgeFacts.
Import CommandlineHookBridge Terms.

Section WithApp.
Context {A : Type}.
Implicit Types (options : RootCommandOptions A) (w : World A) (s : State A)
         (cr : CLI A).

Lemma range_call_app {S : Type} (l1 l2 : list (S -> run S)) (x : S) :
  range_call (l1 ++ l2) x =
  match range_call l1 x with
  | Finished x' => range_call l2 x'
  | other => other
  end.
Proof.
  revert x. induction l1 as [|f l1 IH]; intro x; simpl; [reflexivity|].
  destruct (f x); auto.
Qed.

Lemma range_call_users (fs : list (Proc A)) s :
  Forall returns fs ->
  range_call (map user_func fs) s =
  Finished (mkState (mkWorld (rt (world s))
                             (apps fs (rt (world s)) (app (world s))))
                    (env s)).
Proof.
  intro F. revert s. induction F as [|f fs Hf F IH]; intro s.
  - destruct s as [[r a] e]; reflexivity.
  - simpl. unfold user_func at 1, call.
    destruct (Hf (rt (world s)) (app (world s))) as [a' E].
    rewrite E. cbn [run_map]. rewrite IH. reflexivity.
Qed.

Lemma hook_bridge_New_valid options w :
  validate options = None ->
  exists root0,
    New options w =
    (Some (mkCLI root0 0%Z
                 (map user_func (CleanupFuncs options) ++ [internal_cleanup])),
     None, mkState w (mkEnv None None))
    /\ Cobra.PersistentPreRunE root0 = PersistentPreRunE options.
Proof.
  intro V. unfold New. rewrite V. eexists. split; reflexivity.
Qed.

Lemma hook_bridge_New_Some options w cr e s :
  New options w = (Some cr, e, s) -> validate options = None.
Proof.
  unfold New. destruct (validate options); [discriminate|reflexivity].
Qed.

Lemma hook_bridge_New_invalid options w e :
  validate options = Some e ->
  exists s, New options w = (None, Some e, s) /\ world s = w.
Proof. intro V. unfold New. rewrite V. eexists. split; reflexivity. Qed.

(** Teardown of a manager whose hook never fired: both guards of the
    internal cleanup see nil, and the caller's procedures all run. *)
Lemma Cleanup_unexecuted options w0 cr s1 :
  New options w0 = (Some cr, None, s1) ->
  Forall returns (CleanupFuncs options) ->
  Cleanup cr s1 =
  Finished (mkState (mkWorld (rt w0) (apps (CleanupFuncs options) (rt w0) (app w0)))
                    (mkEnv None None)).
Proof.
  intros N F. pose proof (hook_bridge_New_Some _ _ _ _ _ N) as V.
  destruct (hook_bridge_New_valid options w0 V) as (root0 & E & _).
  rewrite E in N. inversion N; subst cr s1. clear N E.
  unfold Cleanup. cbn [cleanups].
  rewrite range_call_app, (range_call_users _ _ F). reflexivity.
Qed.

(** The context the hook installs. *)
Lemma hook_bridge_context options cmd s parent :
  Cobra.Context cmd = Some parent ->
  exists s',
    PersistentPreRunE options cmd s =
    Returns (Cobra.SetContext cmd
               (GoContext.cancelCtx
                  (fold_left (fun ctx m => m ctx) (Modifiers options)
                     (Logging.AddToContext parent
                        (Logging.New (Cobra.ErrOrStderr cmd)
                                     (level_of (Cobra.GetCount cmd)))))
                  (Runtime.fresh (rt (world s)))),
             s')
    /\ Runtime.handlers (rt (world s'))
       = Runtime.add (2 + Runtime.fresh (rt (world s)))
                     (Runtime.handlers (rt (world s)))
    /\ length (Runtime.watchers (rt (world s')))
       = S (length (Runtime.watchers (rt (world s)))).
Proof.
  intro H. unfold PersistentPreRunE. rewrite H.
  eexists. split; [reflexivity|]. simpl. split; [reflexivity|].
  rewrite length_app. simpl. lia.
Qed.

End WithApp.

End HookBridgeFacts.

(** ** commandline/registry.go *)

Module RegistryFacts.
Import CommandlineRegistry Terms.

Section WithApp.
Context {A : Type}.
Implicit Types (options : RootCommandOptions) (w : World A) (cr : CLI A).

Lemma registry_New_invalid options w e :
  validate options = Some e -> New options w = (None, Some e, w).
Proof. intro V. unfold New. now rewrite V. Qed.

(** The context the hook installs: the modifiers run on the cancellable
    context derived from the one carrying the logger. *)
Lemma registry_context options cmd w parent :
  Cobra.Context cmd = Some parent ->
  exists w',
    PersistentPreRunE options cmd w =
    Returns (Cobra.SetContext cmd
               (fold_left (fun ctx m => m ctx) (Modifiers options)
                  (GoContext.cancelCtx
                     (Logging.AddToContext parent
                        (Logging.New (Cobra.ErrOrStderr cmd)
                                     (level_of (Cobra.GetCount cmd))))
                     (Runtime.fresh (rt w)))),
             w')
    /\ Runtime.handlers (rt w')
       = Runtime.add (1 + Runtime.fresh (rt w)) (Runtime.handlers (rt w))
    /\ length (Runtime.watchers (rt w')) = S (length (Runtime.watchers (rt w))).
Proof.
  intro H. unfold PersistentPreRunE. rewrite H.
  eexists. split; [reflexivity|]. simpl. split; [reflexivity|].
  rewrite length_app. simpl. lia.
Qed.

End WithApp.

End RegistryFacts.

(** ** Verbosity, modifiers and teardown across the variants of the package *)

Module LifecycleFacts.
Import Terms.

(** The three copies of the verbosity switch agree. *)
Lemma level_of_agree (n : Z) :
  CommandlineHookBridge.level_of n = Commandline.level_of n
  /\ CommandlineRegistry.level_of n = Commandline.level_of n.
Proof. split; reflexivity. Qed.

(** The switch on the counts it names: 1 is info, 2 is debug, 3 is trace,
    and no flag at all is warn. *)
Lemma level_of_named :
  Commandline.level_of 0 = Logrus.WarnLevel
  /\ Commandline.level_of 1 = Logrus.InfoLevel
  /\ Commandline.level_of 2 = Logrus.DebugLevel
  /\ Commandline.level_of 3 = Logrus.TraceLevel.
Proof. repeat split. Qed.

Lemma level_of_above_three (c : Z) :
  (3 < c)%Z -> Commandline.level_of c = Logrus.WarnLevel.
Proof.
  intro H. rewrite CommandlineFacts.level_of_table.
  destruct (Z.eqb_spec c 1); [lia|].
  destruct (Z.eqb_spec c 2); [lia|].
  destruct (Z.eqb_spec c 3); [lia|reflexivity].
Qed.

(** C3, where the code departs from it: a verbosity count above three
    falls into the [default] branch of the switch, in all three copies of
    it, so the logger the command body finds in its context has level
    warn, not trace. *)
Theorem verbosity_above_three_is_warn (c : Z) :
  (3 < c)%Z ->
  Commandline.level_of c = Logrus.WarnLevel
  /\ CommandlineHookBridge.level_of c = Logrus.WarnLevel
  /\ CommandlineRegistry.level_of c = Logrus.WarnLevel
  /\ (forall (A : Type) (options : Commandline.RootCommandOptions A) w0 cr w1
             (cmd0 : Cobra.Command) (body : Cobra.Command -> Proc A) w,
         Commandline.New options w0 = (Some cr, None, w1) ->
         Forall (keeps Logging.contextKey) (Commandline.Modifiers options) ->
         Cobra.ctx cmd0 = None ->
         exists cmd' ctx' cr',
           Commandline.Execute
             (Commandline.RegisterCommands cr [Cobra.mkSub cmd0 body])
             (Cobra.mkInvocation c (Cobra.Use cmd0)) w
           = run_map (fun w' => (None, cr', w')) (call (body cmd') w)
           /\ Cobra.Context cmd' = Some ctx'
           /\ Logging.FromContext ctx'
              = Returns (Logging.New (Cobra.errWriter cmd0) Logrus.WarnLevel)).
Proof.
  intro H. pose proof (level_of_above_three c H) as L.
  split; [exact L|]. split; [exact L|]. split; [exact L|].
  intros A options w0 cr w1 cmd0 body w N K C.
  destruct (CommandlineFacts.Execute_fresh options w0 cr w1 cmd0 body
              (Cobra.mkInvocation c (Cobra.Use cmd0)) w N eq_refl C) as [cr' E].
  eexists. eexists. exists cr'. split; [exact E|]. split; [reflexivity|].
  cbn [Cobra.count]. rewrite (CommandlineFacts.hook_ctx_logger _ _ _ _ K).
  now rewrite L.
Qed.

(** C6: teardown of a manager that was constructed but never executed
    runs to its end whenever the caller's procedures do, and all of them
    have then run; this holds for the manager that installs the bridge at
    construction and for the one whose internal cleanup guards its two
    variables against nil. *)
Theorem Cleanup_without_Execute (A : Type) :
  (forall (options : Commandline.RootCommandOptions A) w0 cr w1,
      Commandline.New options w0 = (Some cr, None, w1) ->
      Forall returns (Commandline.CleanupFuncs options) ->
      exists w2,
        Commandline.Cleanup cr w1 = Finished w2
        /\ app w2 = apps (Commandline.CleanupFuncs options) (rt w2) (app w0))
  /\ (forall (options : CommandlineHookBridge.RootCommandOptions A) w0 cr s1,
         CommandlineHookBridge.New options w0 = (Some cr, None, s1) ->
         Forall returns (CommandlineHookBridge.CleanupFuncs options) ->
         exists s2,
           CommandlineHookBridge.Cleanup cr s1 = Finished s2
           /\ rt (CommandlineHookBridge.world s2) = rt w0
           /\ app (CommandlineHookBridge.world s2)
              = apps (CommandlineHookBridge.CleanupFuncs options) (rt w0) (app w0)).
Proof.
  split.
  - intros options w0 cr w1 N F.
    destruct (CommandlineFacts.New_built _ _ _ _ N) as [B ->].
    rewrite (CommandlineFacts.Cleanup_returns _ _ _ _ B F).
    eexists. split; reflexivity.
  - intros options w0 cr s1 N F.
    rewrite (HookBridgeFacts.Cleanup_unexecuted options w0 cr s1 N F).
    eexists. split; [reflexivity|]. split; reflexivity.
Qed.

Lemma Value_two_inserted (ctx : GoContext.Context) k1 v1 k2 v2 :
  k1 <> k2 ->
  let ctx' := inserting k2 v2 (inserting k1 v1 ctx) in
  GoContext.Value ctx' k1 = v1 /\ GoContext.Value ctx' k2 = v2.
Proof.
  intro H. unfold inserting. split.
  - rewrite ContextFacts.Value_WithValue_other by congruence.
    apply ContextFacts.Value_WithValue_same.
  - apply ContextFacts.Value_WithValue_same.
Qed.

(** C8: the hook stores the logger first and then applies the modifiers
    in registration order, so the first modifier already finds the
    logger; and with two modifiers that insert pairs under distinct keys,
    the command body is run on a command whose context yields both
    values.  The hooks of the two other variants of the package, which
    also derive a cancellable context, install a context that yields both
    values too. *)
Theorem modifiers_reach_command_body (A : Type) k1 v1 k2 v2 :
  k1 <> k2 ->
  (forall (options : Commandline.RootCommandOptions A) cmd w parent,
      Cobra.Context cmd = Some parent ->
      let logger := Logging.New (Cobra.ErrOrStderr cmd)
                                (Commandline.level_of (Cobra.GetCount cmd)) in
      Logging.FromContext (Logging.AddToContext parent logger) = Returns logger
      /\ Commandline.PersistentPreRunE options cmd w
         = Returns (Cobra.SetContext cmd
                      (fold_left (fun ctx m => m ctx) (Commandline.Modifiers options)
                                 (Logging.AddToContext parent logger)),
                    w))
  /\ (forall (options : Commandline.RootCommandOptions A) w0 cr w1
             (cmd0 : Cobra.Command) (body : Cobra.Command -> Proc A) inv w,
         Commandline.New options w0 = (Some cr, None, w1) ->
         Commandline.Modifiers options = [inserting k1 v1; inserting k2 v2] ->
         Cobra.Use cmd0 = Cobra.target inv ->
         Cobra.ctx cmd0 = None ->
         exists cmd' ctx' cr',
           Commandline.Execute
             (Commandline.RegisterCommands cr [Cobra.mkSub cmd0 body]) inv w
           = run_map (fun w' => (None, cr', w')) (call (body cmd') w)
           /\ Cobra.Context cmd' = Some ctx'
           /\ GoContext.Value ctx' k1 = v1
           /\ GoContext.Value ctx' k2 = v2)
  /\ (forall (options : CommandlineRegistry.RootCommandOptions) cmd (w : World A) parent,
         Cobra.Context cmd = Some parent ->
         CommandlineRegistry.Modifiers options = [inserting k1 v1; inserting k2 v2] ->
         exists cmd' ctx' w',
           CommandlineRegistry.PersistentPreRunE options cmd w = Returns (cmd', w')
           /\ Cobra.Context cmd' = Some ctx'
           /\ GoContext.Value ctx' k1 = v1
           /\ GoContext.Value ctx' k2 = v2)
  /\ (forall (options : CommandlineHookBridge.RootCommandOptions A) cmd s parent,
         Cobra.Context cmd = Some parent ->
         CommandlineHookBridge.Modifiers options = [inserting k1 v1; inserting k2 v2] ->
         exists cmd' ctx' s',
           CommandlineHookBridge.PersistentPreRunE options cmd s = Returns (cmd', s')
           /\ Cobra.Context cmd' = Some ctx'
           /\ GoContext.Value ctx' k1 = v1
           /\ GoContext.Value ctx' k2 = v2).
Proof.
  intro K. split; [|split; [|split]].
  - intros options cmd w parent H. cbn zeta. split; [reflexivity|].
    apply (CommandlineFacts.PersistentPreRunE_context options cmd w parent H).
  - intros options w0 cr w1 cmd0 body inv w N M U C.
    destruct (CommandlineFacts.Execute_fresh options w0 cr w1 cmd0 body inv w N U C)
      as [cr' E].
    eexists. eexists. exists cr'. split; [exact E|]. split; [reflexivity|].
    unfold hook_ctx. rewrite M. cbn [fold_left].
    apply (Value_two_inserted _ k1 v1 k2 v2 K).
  - intros options cmd w parent H M.
    destruct (RegistryFacts.registry_context options cmd w parent H)
      as (w' & E & _).
    eexists. eexists. exists w'. split; [exact E|]. split; [reflexivity|].
    rewrite M. cbn [fold_left]. apply (Value_two_inserted _ k1 v1 k2 v2 K).
  - intros options cmd s parent H M.
    destruct (HookBridgeFacts.hook_bridge_context options cmd s parent H)
      as (s' & E & _).
    eexists. eexists. exists s'. split; [exact E|]. split; [reflexivity|].
    rewrite M. cbn [fold_left GoContext.Value].
    apply (Value_two_inserted _ k1 v1 k2 v2 K).
Qed.

End LifecycleFacts.

(** ** The concrete runs *)

Module Runs.
Import Scenario Terms.

Lemma note_returns (label : string) : returns (note label).
Proof. intros r a. eexists. reflexivity. Qed.

Lemma probe_returns (label : string) : returns (probe label).
Proof. intros r a. eexists. reflexivity. Qed.

Lemma demo_cleanups_return : Forall returns (Commandline.CleanupFuncs demo).
Proof. repeat constructor; apply probe_returns. Qed.

Lemma demo_modifiers_keep_logger :
  Forall (keeps Logging.contextKey) (Commandline.Modifiers demo).
Proof. repeat constructor; intro ctx; reflexivity. Qed.

Lemma New_demo : Commandline.New demo start = (Some demo_cli, None, demo_world).
Proof. reflexivity. Qed.

Lemma rootdir_roundtrip_witness :
  rootFS <> None
  /\ Fileutils.RootDirFromContext (Fileutils.ApplyRootDirToContext chained rootFS)
     = Returns rootFS
  /\ GoContext.Value (Fileutils.ApplyRootDirToContext chained rootFS)
                     (GoContext.StringKey "otherKey")
     = Some (GoContext.DString "otherValue").
Proof.
  assert (H : rootFS <> None) by discriminate.
  split; [exact H|]. split.
  - exact (proj1 (FileutilsFacts.rootdir_roundtrip chained rootFS H)).
  - exact (proj1 (proj2 (proj2 (FileutilsFacts.rootdir_roundtrip chained rootFS H))
                        (GoContext.StringKey "otherKey") ltac:(discriminate))).
Defined.

Lemma rootdir_panics_iff_witness :
  Fileutils.RootDirFromContext (Fileutils.ApplyRootDirToContext chained None)
  = Panicked Fileutils.no_root_dir
  /\ (Fileutils.RootDirFromContext chained = Panicked Fileutils.no_root_dir
      <-> unusable (GoContext.binding chained Fileutils.rootDirKey)).
Proof.
  split.
  - exact (proj1 (proj2 (proj2 FileutilsFacts.rootdir_panics_iff) chained)).
  - exact (proj1 (proj1 (proj2 FileutilsFacts.rootdir_panics_iff) chained)).
Defined.

Lemma New_fails_iff_field_missing_witness :
  Commandline.Name nameless = ""
  /\ snd (fst (Commandline.New nameless start)) = Some "root command must have name".
Proof.
  split; [reflexivity|].
  pose proof (CommandlineFacts.New_fails_iff_field_missing nameless start) as H.
  cbn in H. exact (proj1 (proj2 H) eq_refl).
Defined.

Lemma single_signal_bridge_witness :
  Commandline.New demo start = (Some demo_cli, None, demo_world)
  /\ length (Runtime.handlers
               (rt (snd (Commandline.steps (demo_cli, demo_world) busy_life)))) <= 1.
Proof.
  split; [reflexivity|].
  apply (proj2 (proj2 (proj2
           (CommandlineFacts.single_signal_bridge demo [] demo_cli demo_world New_demo)))
           busy_life).
Defined.

Lemma Cleanup_releases_bridge_first_witness :
  Commandline.New demo start = (Some demo_cli, None, demo_world)
  /\ Commandline.Cleanup demo_cli demo_world
     = Finished (mkWorld (Signal.stop (bridge Runtime.init) (installed Runtime.init))
                         ["user1:released"; "user2:released"]).
Proof.
  split; [reflexivity|].
  destruct (proj2 (proj2 (CommandlineFacts.Cleanup_releases_bridge_first
                            demo start demo_cli demo_world New_demo)) demo_world)
    as (_ & _ & _ & R & _).
  exact (R demo_cleanups_return).
Defined.

Lemma New_invalid_no_effect_witness :
  Commandline.validate nameless = Some "root command must have name"
  /\ Commandline.New nameless start
     = (None, Some "root command must have name", start).
Proof.
  split; [reflexivity|].
  apply (CommandlineFacts.New_invalid_no_effect nameless start); reflexivity.
Defined.




Lemma verbosity_above_three_is_warn_witness :
  (3 < 4)%Z /\ Commandline.level_of 4 = Logrus.WarnLevel.
Proof.
  split; [reflexivity|].
  exact (proj1 (LifecycleFacts.verbosity_above_three_is_warn 4 eq_refl)).
Defined.

(** [-vvvv test]: the command body finds a logger at level warn, where
    [-vvv test] gives it one at level trace. *)
Example four_flags_observe_warn :
  app (snd (state_of
              (Commandline.Execute
                 (Commandline.RegisterCommands demo_cli [Cobra.mkSub test_cmd report_level])
                 (Cobra.mkInvocation 4 "test") demo_world)))
  = ["warning"]
  /\ app (snd (state_of
                 (Commandline.Execute
                    (Commandline.RegisterCommands demo_cli
                                                  [Cobra.mkSub test_cmd report_level])
                    (Cobra.mkInvocation 3 "test") demo_world)))
     = ["trace"].
Proof. split; reflexivity. Qed.

Lemma New_demo_hook_bridge :
  CommandlineHookBridge.New demo_hook_bridge start
  = (Some demo_hook_bridge_cli, None, demo_hook_bridge_state).
Proof. reflexivity. Qed.

Lemma Cleanup_without_Execute_witness :
  Commandline.New demo start = (Some demo_cli, None, demo_world)
  /\ (exists w2, Commandline.Cleanup demo_cli demo_world = Finished w2
                 /\ app w2 = apps (Commandline.CleanupFuncs demo) (rt w2) (app start))
  /\ CommandlineHookBridge.New demo_hook_bridge start
     = (Some demo_hook_bridge_cli, None, demo_hook_bridge_state)
  /\ (exists s2,
         CommandlineHookBridge.Cleanup demo_hook_bridge_cli demo_hook_bridge_state
         = Finished s2
         /\ rt (CommandlineHookBridge.world s2) = rt start
         /\ app (CommandlineHookBridge.world s2)
            = apps (CommandlineHookBridge.CleanupFuncs demo_hook_bridge)
                   (rt start) (app start)).
Proof.
  split; [reflexivity|]. split.
  - exact (proj1 (LifecycleFacts.Cleanup_without_Execute Log)
                 demo start demo_cli demo_world New_demo demo_cleanups_return).
  - split; [reflexivity|].
    apply (proj2 (LifecycleFacts.Cleanup_without_Execute Log)
                 demo_hook_bridge start demo_hook_bridge_cli demo_hook_bridge_state
                 New_demo_hook_bridge).
    repeat constructor; apply probe_returns.
Defined.

Lemma modifiers_reach_command_body_witness :
  key1 <> key2
  /\ Commandline.New demo start = (Some demo_cli, None, demo_world)
  /\ exists cmd' ctx' cr',
      Commandline.Execute
        (Commandline.RegisterCommands demo_cli [Cobra.mkSub test_cmd report_level])
        (Cobra.mkInvocation 0 "test") demo_world
      = run_map (fun w' => (None, cr', w')) (call (report_level cmd') demo_world)
      /\ Cobra.Context cmd' = Some ctx'
      /\ GoContext.Value ctx' key1 = value1
      /\ GoContext.Value ctx' key2 = value2.
Proof.
  assert (K : key1 <> key2) by discriminate.
  split; [exact K|]. split; [reflexivity|].
  exact (proj1 (proj2 (LifecycleFacts.modifiers_reach_command_body
                         Log key1 value1 key2 value2 K))
               demo start demo_cli demo_world test_cmd report_level
               (Cobra.mkInvocation 0 "test") demo_world
               New_demo eq_refl eq_refl eq_refl).
Defined.

(** *** The variants whose hook subscribes *)

(** With the bridge set up by the hook, two firings of the hook leave two
    live subscriptions and two goroutines; teardown then releases only the
    second, and the caller's procedures have run before it, while both
    were still live. *)
Example hook_bridge_fired_twice :
  match CommandlineHookBridge.PersistentPreRunE demo_hook_bridge running_cmd
          demo_hook_bridge_state with
  | Returns (_, s1) =>
      match CommandlineHookBridge.PersistentPreRunE demo_hook_bridge running_cmd s1 with
      | Returns (_, s2) =>
          Runtime.handlers (rt (CommandlineHookBridge.world s2)) = [5; 2]
          /\ length (Runtime.watchers (rt (CommandlineHookBridge.world s2))) = 2
          /\ exists s3,
              CommandlineHookBridge.Cleanup demo_hook_bridge_cli s2 = Finished s3
              /\ app (CommandlineHookBridge.world s3)
                 = ["user1:subscribed"; "user2:subscribed"]
              /\ Runtime.handlers (rt (CommandlineHookBridge.world s3)) = [2]
      | Panicked _ => False
      end
  | Panicked _ => False
  end.
Proof. cbn. repeat split. eexists. repeat split. Qed.

(** With the bridge set up by the hook, too, a second teardown runs the
    caller's procedures again. *)
Example hook_bridge_Cleanup_twice :
  app (CommandlineHookBridge.world
         (state_of (CommandlineHookBridge.Cleanup demo_hook_bridge_cli
                      (state_of (CommandlineHookBridge.Cleanup
                                   demo_hook_bridge_cli demo_hook_bridge_state)))))
  = ["user1:released"; "user2:released"; "user1:released"; "user2:released"].
Proof. reflexivity. Qed.

(** In [registry.go] every firing of the hook adds a subscription, and
    nothing releases one. *)
Example registry_fired_twice :
  match CommandlineRegistry.PersistentPreRunE demo_registry running_cmd start with
  | Returns (_, w1) =>
      match CommandlineRegistry.PersistentPreRunE demo_registry running_cmd w1 with
      | Returns (_, w2) =>
          Runtime.handlers (rt w2) = [3; 1]
          /\ length (Runtime.watchers (rt w2)) = 2
      | Panicked _ => False
      end
  | Panicked _ => False
  end.
Proof. cbn. repeat split. Qed.

End Runs.

(** ** The context accessors of logging and fileutils together *)

Module AccessorFacts.
Import GoContext Terms ContextFacts.

(** X1: a logger stored with [AddToContext] is the one [FromContext] returns,
    whatever logger the context held before, and every other key keeps the
    value and the binding it had. *)
Theorem logger_roundtrip (ctx : Context) (logger : Logrus.Logger) :
  Logging.FromContext (Logging.AddToContext ctx logger) = Returns logger
  /\ (forall k, k <> Logging.contextKey ->
        Value (Logging.AddToContext ctx logger) k = Value ctx k
        /\ binding (Logging.AddToContext ctx logger) k = binding ctx k).
Proof.
  split; [reflexivity|].
  intros k Hk. unfold Logging.AddToContext, WithValue. cbn [Value binding].
  rewrite key_eqb_neq by congruence. split; reflexivity.
Qed.

(** A binding under a key of another type never reaches an accessor: the
    keys are typed, so the text of the key does not matter. *)
Lemma other_key_invisible (ctx : Context) (k : Key) (v : any) :
  (k <> Fileutils.rootDirKey ->
   Fileutils.RootDirFromContext (WithValue ctx k v) = Fileutils.RootDirFromContext ctx)
  /\ (k <> Logging.contextKey ->
      Logging.FromContext (WithValue ctx k v) = Logging.FromContext ctx).
Proof.
  split; intro H.
  - unfold Fileutils.RootDirFromContext.
    now rewrite Value_WithValue_other by exact H.
  - unfold Logging.FromContext.
    now rewrite Value_WithValue_other by exact H.
Qed.

(** X3: the two accessors do not disturb each other: storing a filesystem
    leaves what [FromContext] yields unchanged, storing a logger leaves what
    [RootDirFromContext] yields unchanged, so a context given both, in
    either order, yields both. *)
Theorem accessors_independent (ctx : Context) (logger : Logrus.Logger) (files : Fs.FS) :
  Logging.FromContext (Fileutils.ApplyRootDirToContext ctx files) = Logging.FromContext ctx
  /\ Fileutils.RootDirFromContext (Logging.AddToContext ctx logger)
     = Fileutils.RootDirFromContext ctx
  /\ Logging.FromContext
       (Fileutils.ApplyRootDirToContext (Logging.AddToContext ctx logger) files)
     = Returns logger
  /\ Fileutils.RootDirFromContext
       (Logging.AddToContext (Fileutils.ApplyRootDirToContext ctx files) logger)
     = Fileutils.RootDirFromContext (Fileutils.ApplyRootDirToContext ctx files).
Proof.
  assert (A1 : forall c f, Logging.FromContext (Fileutils.ApplyRootDirToContext c f)
                           = Logging.FromContext c).
  { intros c f. apply (other_key_invisible c Fileutils.rootDirKey). discriminate. }
  assert (A2 : forall c l, Fileutils.RootDirFromContext (Logging.AddToContext c l)
                           = Fileutils.RootDirFromContext c).
  { intros c l. apply (other_key_invisible c Logging.contextKey). discriminate. }
  split; [apply A1|]. split; [apply A2|]. split; [now rewrite A1|apply A2].
Qed.

(** X4: caller code that stores values under plain string keys, even under the
    strings ["logger"] and ["rootDir"], cannot hide or replace the logger
    or the filesystem: such a modifier keeps both. *)
Theorem string_keys_keep_accessors (s : string) (v : any) :
  keeps Logging.contextKey (inserting (StringKey s) v)
  /\ keeps Fileutils.rootDirKey (inserting (StringKey s) v)
  /\ (forall ctx,
         Logging.FromContext (inserting (StringKey s) v ctx) = Logging.FromContext ctx
         /\ Fileutils.RootDirFromContext (inserting (StringKey s) v ctx)
            = Fileutils.RootDirFromContext ctx).
Proof.
  split; [|split].
  - intro ctx. unfold inserting. apply Value_WithValue_other. discriminate.
  - intro ctx. unfold inserting. apply Value_WithValue_other. discriminate.
  - intro ctx. unfold inserting. split.
    + apply (other_key_invisible ctx (StringKey s)). discriminate.
    + apply (other_key_invisible ctx (StringKey s)). discriminate.
Qed.

End AccessorFacts.

(** ** The pre-run hooks *)

Module HookFacts.
Import Terms.

(** X5: whatever the verbosity count, the hook's logger still prints warnings:
    the switch never yields a level stricter than warn; it yields a more
    verbose level exactly for the counts 1, 2 and 3, each more verbose than
    the one before; and the three copies of the switch agree. *)
Theorem level_never_hides_warnings (c : Z) :
  prints_warnings (Commandline.level_of c) = true
  /\ (Commandline.level_of c <> Logrus.WarnLevel <-> (1 <= c <= 3)%Z)
  /\ (Commandline.level_of c = Logrus.InfoLevel <-> c = 1%Z)
  /\ (Commandline.level_of c = Logrus.DebugLevel <-> c = 2%Z)
  /\ (Commandline.level_of c = Logrus.TraceLevel <-> c = 3%Z)
  /\ CommandlineHookBridge.level_of c = Commandline.level_of c
  /\ CommandlineRegistry.level_of c = Commandline.level_of c.
Proof.
  rewrite CommandlineFacts.level_of_table.
  destruct (Z.eqb_spec c 1) as [->|H1]; [repeat split; intros; try lia; try discriminate|].
  destruct (Z.eqb_spec c 2) as [->|H2]; [repeat split; intros; try lia; try discriminate|].
  destruct (Z.eqb_spec c 3) as [->|H3]; [repeat split; intros; try lia; try discriminate|].
  repeat split; intros; try lia; try discriminate; try congruence.
  - rewrite CommandlineFacts.level_of_table.
    destruct (Z.eqb_spec c 1); [lia|]. destruct (Z.eqb_spec c 2); [lia|].
    destruct (Z.eqb_spec c 3); [lia|reflexivity].
  - rewrite CommandlineFacts.level_of_table.
    destruct (Z.eqb_spec c 1); [lia|]. destruct (Z.eqb_spec c 2); [lia|].
    destruct (Z.eqb_spec c 3); [lia|reflexivity].
Qed.

(** X6: each of the three hooks, run on a command that has a context, installs
    a context in which [FromContext] finds the hook's own logger: bound to
    the command's error stream, at the level of the verbosity count, and in
    place of any logger the command's context held before; provided the
    modifiers leave the logger key alone.  The cancellable context two of
    the hooks derive does not hide it. *)
Theorem hook_installs_its_logger (A : Type) (cmd : Cobra.Command)
        (parent : GoContext.Context) :
  Cobra.Context cmd = Some parent ->
  let logger := Logging.New (Cobra.ErrOrStderr cmd)
                            (Commandline.level_of (Cobra.GetCount cmd)) in
  (forall (options : Commandline.RootCommandOptions A) w,
      Forall (keeps Logging.contextKey) (Commandline.Modifiers options) ->
      exists cmd' ctx',
        Commandline.PersistentPreRunE options cmd w = Returns (cmd', w)
        /\ Cobra.Context cmd' = Some ctx'
        /\ Logging.FromContext ctx' = Returns logger)
  /\ (forall (options : CommandlineHookBridge.RootCommandOptions A) s,
         Forall (keeps Logging.contextKey) (CommandlineHookBridge.Modifiers options) ->
         exists cmd' ctx' s',
           CommandlineHookBridge.PersistentPreRunE options cmd s = Returns (cmd', s')
           /\ Cobra.Context cmd' = Some ctx'
           /\ Logging.FromContext ctx' = Returns logger)
  /\ (forall (options : CommandlineRegistry.RootCommandOptions) (w : World A),
         Forall (keeps Logging.contextKey) (CommandlineRegistry.Modifiers options) ->
         exists cmd' ctx' w',
           CommandlineRegistry.PersistentPreRunE options cmd w = Returns (cmd', w')
           /\ Cobra.Context cmd' = Some ctx'
           /\ Logging.FromContext ctx' = Returns logger).
Proof.
  intro H. cbn zeta. split; [|split].
  - intros options w K.
    rewrite (CommandlineFacts.PersistentPreRunE_context options cmd w parent H).
    eexists. eexists. split; [reflexivity|]. split; [reflexivity|].
    apply CommandlineFacts.hook_ctx_logger, K.
  - intros options s K.
    destruct (HookBridgeFacts.hook_bridge_context options cmd s parent H) as (s' & E & _).
    eexists. eexists. exists s'. split; [exact E|]. split; [reflexivity|].
    unfold Logging.FromContext. cbn [GoContext.Value].
    rewrite (CommandlineFacts.fold_keeps _ _ K). reflexivity.
  - intros options w K.
    destruct (RegistryFacts.registry_context options cmd w parent H) as (w' & E & _).
    eexists. eexists. exists w'. split; [exact E|]. split; [reflexivity|].
    unfold Logging.FromContext.
    rewrite (CommandlineFacts.fold_keeps _ _ K). reflexivity.
Qed.

End HookFacts.

(** ** The bridge from signals to cancellation *)

Module BridgeFacts.
Import Runtime Terms RuntimeFacts.

Lemma mem_below (n m : nat) (l : list nat) :
  Forall (fun c => c < n) l -> n <= m -> mem m l = false.
Proof.
  intros F L. destruct (mem m l) eqn:E; [|reflexivity].
  apply mem_In in E. rewrite Forall_forall in F. specialize (F m E). lia.
Qed.

Lemma mem_add_other (c x : nat) (l : list nat) :
  c <> x -> mem c (add x l) = mem c l.
Proof.
  intro H. unfold add. destruct (mem x l); [reflexivity|].
  unfold mem. simpl. apply Nat.eqb_neq in H. now rewrite H.
Qed.

Lemma mem_add_keep (c x : nat) (l : list nat) :
  mem c l = true -> mem c (add x l) = true.
Proof.
  intro H. destruct (Nat.eq_dec c x) as [->|N]; [apply mem_add|].
  now rewrite mem_add_other.
Qed.

Lemma mem_remove_other (c x : nat) (l : list nat) :
  c <> x -> mem c (remove x l) = mem c l.
Proof.
  intro H. unfold remove. induction l as [|y l IH]; [reflexivity|].
  cbn [filter]. destruct (Nat.eqb_spec x y) as [->|N]; cbn [negb].
  - rewrite IH. unfold mem at 2. cbn [existsb].
    apply Nat.eqb_neq in H. now rewrite H.
  - unfold mem in *. cbn [existsb]. now rewrite IH.
Qed.

Lemma remove_absent (x : nat) (l : list nat) : mem x l = false -> remove x l = l.
Proof.
  unfold remove, mem. induction l as [|y l IH]; [reflexivity|].
  simpl. destruct (Nat.eqb x y); simpl; [discriminate|].
  intro H. now rewrite IH.
Qed.

Lemma remove_add_fresh (x : nat) (l : list nat) :
  mem x l = false -> remove x (add x l) = l.
Proof.
  intro H. unfold add. rewrite H. unfold remove. simpl.
  rewrite Nat.eqb_refl. simpl. now apply remove_absent.
Qed.

Lemma mem_cons (c x : nat) (l : list nat) : mem c (x :: l) = Nat.eqb c x || mem c l.
Proof. reflexivity. Qed.

(** A delivered signal reaches every registered channel and no other. *)
Lemma mem_deliver (c : nat) (b h : list nat) :
  mem c (fold_right add b h) = mem c b || mem c h.
Proof.
  induction h as [|x h IH]; cbn [fold_right].
  - change (mem c []) with false. now rewrite orb_false_r.
  - rewrite mem_cons. destruct (Nat.eq_dec c x) as [->|N].
    + rewrite mem_add, Nat.eqb_refl. simpl. now rewrite orb_true_r.
    + rewrite mem_add_other by exact N. rewrite IH.
      apply Nat.eqb_neq in N. now rewrite N.
Qed.

Lemma drop_nth_last {X : Type} (l : list X) (x : X) :
  drop_nth (length l) (l ++ [x]) = l.
Proof. induction l as [|y l IH]; simpl; [reflexivity|now rewrite IH]. Qed.

Lemma nth_error_last {X : Type} (l : list X) (x : X) :
  nth_error (l ++ [x]) (length l) = Some x.
Proof. induction l as [|y l IH]; simpl; [reflexivity|exact IH]. Qed.

(** A context is done as soon as one cancel function on its chain has been
    called. *)
Lemma done_In (r : T) (ctx : GoContext.Context) (id : nat) :
  In id (GoContext.cancels ctx) -> mem id (cancelled r) = true -> done r ctx = true.
Proof.
  intros I M. unfold done. apply existsb_exists. exists id. split; assumption.
Qed.

Lemma done_mono (r r' : T) (ctx : GoContext.Context) :
  incl (cancelled r) (cancelled r') -> done r ctx = true -> done r' ctx = true.
Proof.
  intros I D. unfold done in *. apply existsb_exists in D.
  destruct D as [id [H M]]. apply existsb_exists. exists id. split; [assumption|].
  apply mem_In, I, mem_In, M.
Qed.

Lemma installed_eq (r : T) :
  mem (fresh r) (cancelled r) = false ->
  installed r =
  mk (S (S (fresh r))) (add (S (fresh r)) (handlers r)) (buffered r)
     (watchers r ++ [bridge_watcher r]) (cancelled r) (closed r).
Proof.
  intro H. unfold installed, Signal.NotifyContext, WithCancel, make_chan, done.
  simpl. rewrite H. reflexivity.
Qed.

Lemma bridge_eq (r : T) : bridge r = Signal.mkStopper (fresh r) (S (fresh r)).
Proof. reflexivity. Qed.

Lemma signalCtx_eq (r : T) :
  signalCtx r = GoContext.cancelCtx GoContext.Background (fresh r).
Proof. reflexivity. Qed.

Lemma allocated_fresh (r : T) (k : nat) :
  allocated r ->
  mem (fresh r + k) (handlers r) = false
  /\ mem (fresh r + k) (buffered r) = false
  /\ mem (fresh r + k) (cancelled r) = false
  /\ mem (fresh r + k) (closed r) = false.
Proof.
  intros (H & B & C & D & _).
  repeat split; eapply mem_below; try eassumption; lia.
Qed.

Lemma allocated_init : allocated init.
Proof. repeat split; constructor. Qed.

End BridgeFacts.

(** ** Signals, cancellation and teardown of the manager *)

Module CancellationFacts.
Import Commandline Terms RuntimeFacts BridgeFacts.

Section WithApp.
Context {A : Type}.
Implicit Types (options : RootCommandOptions A) (w : World A) (cr : CLI A).

Lemma fold_extends (ms : list ContextModifiers) :
  Forall extends ms ->
  forall ctx, incl (GoContext.cancels ctx)
                   (GoContext.cancels (fold_left (fun ctx m => m ctx) ms ctx)).
Proof.
  induction 1 as [|m ms Hm F IH]; intro ctx; simpl; [apply incl_refl|].
  eapply incl_tran; [apply Hm|apply IH].
Qed.

(** Whatever the caller's procedures do, teardown leaves the runtime that
    [stop] leaves. *)
Lemma Cleanup_runtime options stp cr w :
  built_from options stp cr ->
  rt (state_of (Cleanup cr w)) = Signal.stop stp (rt w).
Proof.
  intro B. rewrite (CommandlineFacts.Cleanup_built _ _ _ w B).
  now rewrite CommandlineFacts.range_call_users_rt.
Qed.

Lemma New_installed options w0 cr w1 :
  New options w0 = (Some cr, None, w1) ->
  allocated (rt w0) ->
  built_from options (bridge (rt w0)) cr
  /\ rt w1 =
     Runtime.mk (S (S (Runtime.fresh (rt w0))))
                (Runtime.add (S (Runtime.fresh (rt w0))) (Runtime.handlers (rt w0)))
                (Runtime.buffered (rt w0))
                (Runtime.watchers (rt w0) ++ [bridge_watcher (rt w0)])
                (Runtime.cancelled (rt w0)) (Runtime.closed (rt w0)).
Proof.
  intros N W. destruct (CommandlineFacts.New_built _ _ _ _ N) as [B ->].
  split; [exact B|]. cbn [rt]. apply installed_eq.
  pose proof (allocated_fresh (rt w0) 0 W) as (_ & _ & C & _).
  now rewrite Nat.add_0_r in C.
Qed.

(** X7: from construction on, a SIGINT or SIGTERM cancels the execution
    context: the root context is not done when [New] returns; the context
    the hook hands to a command that inherits it descends from it when the
    modifiers derive their results from their arguments; and once a signal
    has been delivered and the watcher has run, every context that descends
    from the root context is done.  The watcher has then returned, while
    the subscription stays until teardown. *)
Theorem signal_cancels_execution_context options w0 cr w1 (b : bool) :
  New options w0 = (Some cr, None, w1) ->
  allocated (rt w0) ->
  let id := Signal.s_cancel (bridge (rt w0)) in
  let after := Runtime.wake (length (Runtime.watchers (rt w0))) b
                            (Runtime.deliver (rt w1)) in
  Runtime.done (rt w1) (signalCtx (rt w0)) = false
  /\ (forall out n,
         Forall extends (Modifiers options) ->
         In id (GoContext.cancels (hook_ctx options (signalCtx (rt w0)) out n)))
  /\ (forall ctx, In id (GoContext.cancels ctx) -> Runtime.done after ctx = true)
  /\ Runtime.handlers after = Runtime.handlers (rt w1)
  /\ Runtime.watchers after = Runtime.watchers (rt w0).
Proof.
  intros N W. destruct (New_installed _ _ _ _ N W) as [_ R].
  pose proof (allocated_fresh (rt w0) 0 W) as (_ & _ & C & _).
  rewrite Nat.add_0_r in C.
  cbn zeta. rewrite R. clear R N.
  set (r0 := rt w0) in *.
  assert (D0 : forall bf,
             Runtime.done
               (Runtime.mk (S (S (Runtime.fresh r0)))
                  (Runtime.add (S (Runtime.fresh r0)) (Runtime.handlers r0)) bf
                  (Runtime.watchers r0 ++ [bridge_watcher r0])
                  (Runtime.cancelled r0) (Runtime.closed r0))
               (signalCtx r0) = false).
  { intro bf. unfold Runtime.done. cbn. unfold Runtime.mem in C. now rewrite C. }
  split; [apply D0|]. split.
  - intros out n F. unfold hook_ctx. apply (fold_extends _ F). left. reflexivity.
  - unfold Runtime.wake, Runtime.deliver.
    cbn [Runtime.watchers Runtime.buffered Runtime.handlers Runtime.fresh
         Runtime.cancelled Runtime.closed].
    rewrite nth_error_last.
    cbn [bridge_watcher Runtime.w_chan Runtime.w_ctx].
    rewrite mem_deliver, RuntimeFacts.mem_add, orb_true_r.
    change (GoContext.cancelCtx GoContext.Background (Runtime.fresh r0))
      with (signalCtx r0).
    rewrite D0. cbn [negb andb orb]. rewrite orb_true_r.
    unfold Runtime.take_signal, Runtime.leave, Runtime.cancel.
    cbn [Runtime.watchers Runtime.buffered Runtime.handlers Runtime.fresh
         Runtime.cancelled Runtime.closed Runtime.w_stop Runtime.w_done
         Runtime.w_cancel Runtime.w_chan].
    rewrite drop_nth_last. split; [|split; reflexivity].
    intros ctx I. apply (done_In _ ctx (Runtime.fresh r0) I).
    cbn [Runtime.cancelled]. apply RuntimeFacts.mem_add.
Qed.

(** X8: teardown ends the bridge: whatever the caller's procedures do, after
    [Cleanup] every context that descends from the root context is done and
    the process holds exactly the subscriptions it held before [New]; and
    once the watcher has been scheduled, the goroutines are those from
    before [New] too. *)
Theorem Cleanup_ends_bridge options w0 cr w1 (b : bool) :
  New options w0 = (Some cr, None, w1) ->
  allocated (rt w0) ->
  let torn := rt (state_of (Cleanup cr w1)) in
  let settled := Runtime.wake (length (Runtime.watchers (rt w0))) b torn in
  (forall ctx, In (Signal.s_cancel (bridge (rt w0))) (GoContext.cancels ctx) ->
               Runtime.done torn ctx = true)
  /\ Runtime.handlers torn = Runtime.handlers (rt w0)
  /\ Runtime.handlers settled = Runtime.handlers (rt w0)
  /\ Runtime.watchers settled = Runtime.watchers (rt w0).
Proof.
  intros N W. destruct (New_installed _ _ _ _ N W) as [B R].
  pose proof (allocated_fresh (rt w0) 1 W) as (H & Bf & _ & _).
  rewrite Nat.add_1_r in H, Bf.
  cbn zeta. rewrite (Cleanup_runtime _ _ _ w1 B), R. clear R N B.
  set (r0 := rt w0) in *.
  unfold Signal.stop, Runtime.Stop, Runtime.cancel. rewrite bridge_eq.
  cbn [Signal.s_chan Signal.s_cancel Runtime.watchers Runtime.buffered
       Runtime.handlers Runtime.fresh Runtime.cancelled Runtime.closed].
  rewrite (remove_add_fresh _ _ H).
  split; [|split; [reflexivity|]].
  - intros ctx I. apply (done_In _ ctx (Runtime.fresh r0) I).
    cbn [Runtime.cancelled]. apply RuntimeFacts.mem_add.
  - unfold Runtime.wake.
    cbn [Runtime.watchers Runtime.buffered Runtime.handlers Runtime.fresh
         Runtime.cancelled Runtime.closed].
    rewrite nth_error_last.
    cbn [bridge_watcher Runtime.w_chan Runtime.w_ctx].
    rewrite Bf. cbn [andb].
    assert (D : Runtime.done
                  (Runtime.mk (S (S (Runtime.fresh r0))) (Runtime.handlers r0)
                     (Runtime.buffered r0)
                     (Runtime.watchers r0 ++ [bridge_watcher r0])
                     (Runtime.add (Runtime.fresh r0) (Runtime.cancelled r0))
                     (Runtime.closed r0))
                  (GoContext.cancelCtx GoContext.Background (Runtime.fresh r0)) = true).
    { apply (done_In _ _ (Runtime.fresh r0)); [left; reflexivity|].
      apply RuntimeFacts.mem_add. }
    fold (bridge_watcher r0). rewrite D.
    unfold Runtime.leave.
    cbn [Runtime.watchers Runtime.buffered Runtime.handlers Runtime.fresh
         Runtime.cancelled Runtime.closed Runtime.w_stop Runtime.w_done bridge_watcher].
    rewrite drop_nth_last. split; reflexivity.
Qed.

(** *** Cancellation is final *)

Lemma cancelled_wake (i : nat) (b : bool) (r : Runtime.T) :
  incl (Runtime.cancelled r) (Runtime.cancelled (Runtime.wake i b r)).
Proof.
  assert (L : forall j g x, Runtime.cancelled (Runtime.leave j g x) = Runtime.cancelled x).
  { intros j g x. unfold Runtime.leave. destruct (Runtime.w_stop g), (Runtime.w_done g);
      reflexivity. }
  unfold Runtime.wake.
  destruct (nth_error (Runtime.watchers r) i) as [g|]; [|apply incl_refl].
  destruct (Runtime.mem (Runtime.w_chan g) (Runtime.buffered r)
            && (b || negb (Runtime.done r (Runtime.w_ctx g)))).
  - unfold Runtime.take_signal. rewrite L. cbn [Runtime.cancel Runtime.cancelled].
    unfold Runtime.add. destruct (Runtime.mem _ _); [apply incl_refl|apply incl_tl, incl_refl].
  - destruct (Runtime.done r (Runtime.w_ctx g)); [rewrite L|]; apply incl_refl.
Qed.

Lemma cancelled_stop (s : Signal.stopper) (r : Runtime.T) :
  incl (Runtime.cancelled r) (Runtime.cancelled (Signal.stop s r)).
Proof.
  unfold Signal.stop. cbn [Runtime.Stop Runtime.cancel Runtime.cancelled].
  unfold Runtime.add. destruct (Runtime.mem _ _); [apply incl_refl|apply incl_tl, incl_refl].
Qed.

Lemma step_cancelled options stp cr w a :
  built_from options stp cr ->
  let '(cr', w') := step (cr, w) a in
  built_from options stp cr'
  /\ incl (Runtime.cancelled (rt w)) (Runtime.cancelled (rt w')).
Proof.
  intro B. pose proof (CommandlineFacts.step_built options stp cr w a B) as S.
  destruct a as [cmds|inv|cmd| |i b|]; cbn [step] in *.
  - split; [apply S|apply incl_refl].
  - pose proof (CommandlineFacts.Execute_built options stp cr inv w B) as E.
    destruct (state_of (Execute cr inv w)) as [[e cr'] w'].
    destruct E as [E1 E2]. split; [assumption|]. rewrite E2. apply incl_refl.
  - destruct B as [H C]. rewrite H in *.
    destruct (PersistentPreRunE options cmd w) as [[cmd' w']|msg] eqn:E.
    + apply CommandlineFacts.PersistentPreRunE_pure in E. subst.
      split; [split; assumption|apply incl_refl].
    + split; [split; assumption|apply incl_refl].
  - split; [apply S|apply incl_refl].
  - split; [apply S|apply cancelled_wake].
  - split; [apply S|]. rewrite (Cleanup_runtime _ _ _ w B). apply cancelled_stop.
Qed.

Lemma steps_cancelled options stp acts : forall cr w,
  built_from options stp cr ->
  let '(cr', w') := steps (cr, w) acts in
  built_from options stp cr'
  /\ incl (Runtime.cancelled (rt w)) (Runtime.cancelled (rt w')).
Proof.
  induction acts as [|a acts IH]; intros cr w B.
  - simpl. split; [assumption|apply incl_refl].
  - change (steps (cr, w) (a :: acts)) with (steps (step (cr, w) a) acts).
    pose proof (step_cancelled options stp cr w a B) as S1.
    destruct (step (cr, w) a) as [cr1 w1]. destruct S1 as [B1 N1].
    specialize (IH cr1 w1 B1).
    destruct (steps (cr1, w1) acts) as [cr2 w2].
    destruct IH as [B2 N2]. split; [assumption|].
    eapply incl_tran; eassumption.
Qed.

(** X10: nothing the manager, the framework, the scheduler or the operating
    system does afterwards revives a cancelled context: a context that is
    done at some point of a manager's life is done at every later point. *)
Theorem cancellation_is_final options w0 cr w1 (acts more : list Action)
        (ctx : GoContext.Context) :
  New options w0 = (Some cr, None, w1) ->
  Runtime.done (rt (snd (steps (cr, w1) acts))) ctx = true ->
  Runtime.done (rt (snd (steps (cr, w1) (acts ++ more)))) ctx = true.
Proof.
  intros N D. destruct (CommandlineFacts.New_built _ _ _ _ N) as [B _].
  unfold steps in *. rewrite fold_left_app. fold (steps (cr, w1) acts) in *.
  pose proof (steps_cancelled options _ acts cr w1 B) as S1.
  destruct (steps (cr, w1) acts) as [cr1 w'] eqn:E1. destruct S1 as [B1 _].
  fold (steps (cr1, w') more).
  pose proof (steps_cancelled options _ more cr1 w' B1) as S2.
  destruct (steps (cr1, w') more) as [cr2 w''] eqn:E2. destruct S2 as [_ I].
  cbn [snd] in *. eapply done_mono; eassumption.
Qed.

(** *** After teardown *)

Lemma mem_incl (c : nat) (l l' : list nat) :
  incl l' l -> Runtime.mem c l = false -> Runtime.mem c l' = false.
Proof.
  intros I H. apply Bool.not_true_is_false. intro E.
  apply RuntimeFacts.mem_In, I, RuntimeFacts.mem_In in E. congruence.
Qed.

(** Running a goroutine never puts a signal on a channel. *)
Lemma buffered_wake (c i : nat) (b : bool) (r : Runtime.T) :
  Runtime.mem c (Runtime.buffered r) = false ->
  Runtime.mem c (Runtime.buffered (Runtime.wake i b r)) = false.
Proof.
  intro H.
  assert (L : forall j g x, Runtime.buffered (Runtime.leave j g x) = Runtime.buffered x).
  { intros j g x. unfold Runtime.leave. destruct (Runtime.w_stop g), (Runtime.w_done g);
      reflexivity. }
  unfold Runtime.wake.
  destruct (nth_error (Runtime.watchers r) i) as [g|]; [|exact H].
  destruct (Runtime.mem (Runtime.w_chan g) (Runtime.buffered r)
            && (b || negb (Runtime.done r (Runtime.w_ctx g)))).
  - unfold Runtime.take_signal. rewrite L. cbn [Runtime.cancel Runtime.buffered].
    apply (mem_incl c (Runtime.buffered r)); [apply RuntimeFacts.incl_remove|exact H].
  - destruct (Runtime.done r (Runtime.w_ctx g)); [rewrite L|]; exact H.
Qed.

Lemma step_unsubscribed options stp cr w a (c : nat) :
  built_from options stp cr ->
  Runtime.mem c (Runtime.handlers (rt w)) = false ->
  let '(cr', w') := step (cr, w) a in
  built_from options stp cr'
  /\ Runtime.mem c (Runtime.handlers (rt w')) = false
  /\ (Runtime.mem c (Runtime.buffered (rt w)) = false ->
      Runtime.mem c (Runtime.buffered (rt w')) = false).
Proof.
  intros B H. pose proof (CommandlineFacts.step_built options stp cr w a B) as S.
  destruct a as [cmds|inv|cmd| |i b|]; cbn [step] in *.
  - destruct S as [S _]. split; [exact S|]. split; [exact H|auto].
  - pose proof (CommandlineFacts.Execute_built options stp cr inv w B) as E.
    destruct (state_of (Execute cr inv w)) as [[e cr'] w'].
    destruct E as [E1 E2]. rewrite E2. split; [exact E1|]. split; [exact H|auto].
  - assert (B' := B). destruct B as [P C]. rewrite P in *.
    destruct (PersistentPreRunE options cmd w) as [[cmd' w']|msg] eqn:E.
    + apply CommandlineFacts.PersistentPreRunE_pure in E. subst.
      split; [exact B'|]. split; [exact H|auto].
    + split; [exact B'|]. split; [exact H|auto].
  - destruct S as [S _]. split; [exact S|]. split; [exact H|].
    intro Bf. cbn [rt Runtime.deliver Runtime.buffered].
    now rewrite mem_deliver, Bf, H.
  - destruct S as [S (_ & I & _)]. split; [exact S|]. cbn [rt] in *. split.
    + apply (mem_incl c _ _ I H).
    + apply buffered_wake.
  - destruct S as [S (_ & I & _)]. split; [exact S|]. split.
    + apply (mem_incl c _ _ I H).
    + rewrite (Cleanup_runtime _ _ _ w B). intro Bf. exact Bf.
Qed.

Lemma steps_unsubscribed options stp acts (c : nat) : forall cr w,
  built_from options stp cr ->
  Runtime.mem c (Runtime.handlers (rt w)) = false ->
  let '(cr', w') := steps (cr, w) acts in
  Runtime.mem c (Runtime.handlers (rt w')) = false
  /\ (Runtime.mem c (Runtime.buffered (rt w)) = false ->
      Runtime.mem c (Runtime.buffered (rt w')) = false).
Proof.
  induction acts as [|a acts IH]; intros cr w B H.
  - simpl. split; auto.
  - change (steps (cr, w) (a :: acts)) with (steps (step (cr, w) a) acts).
    pose proof (step_unsubscribed options stp cr w a c B H) as S1.
    destruct (step (cr, w) a) as [cr1 w1]. destruct S1 as (B1 & H1 & F1).
    specialize (IH cr1 w1 B1 H1).
    destruct (steps (cr1, w1) acts) as [cr2 w2].
    destruct IH as [H2 F2]. split; auto.
Qed.

(** X9: once [Cleanup] has been called, at whatever point of the manager's
    life, the bridge's channel is unsubscribed and is never subscribed
    again, so no signal delivered afterwards reaches it: if no signal is
    pending on the channel when [Cleanup] is over, none is pending at any
    later point, however many signals are delivered and whatever else
    happens.  (A signal that was already buffered before teardown stays
    buffered: [stop] does not drain the channel.) *)
Theorem no_signal_after_Cleanup options w0 cr w1 (acts later : list Action) :
  New options w0 = (Some cr, None, w1) ->
  let ch := Signal.s_chan (bridge (rt w0)) in
  let torn := steps (cr, w1) (acts ++ [CallCleanup]) in
  let after := steps torn later in
  Runtime.mem ch (Runtime.handlers (rt (snd torn))) = false
  /\ Runtime.mem ch (Runtime.handlers (rt (snd after))) = false
  /\ (Runtime.mem ch (Runtime.buffered (rt (snd torn))) = false ->
      Runtime.mem ch (Runtime.buffered (rt (snd after))) = false).
Proof.
  intro N. destruct (CommandlineFacts.New_built _ _ _ _ N) as [B _]. cbn zeta.
  pose proof (steps_cancelled options _ acts cr w1 B) as S1.
  destruct (steps (cr, w1) acts) as [cr1 w] eqn:E1. destruct S1 as [B1 _].
  assert (T : steps (cr, w1) (acts ++ [CallCleanup])
              = (cr1, state_of (Cleanup cr1 w))).
  { unfold steps in *. rewrite fold_left_app, E1. reflexivity. }
  rewrite T. cbn [snd].
  assert (H : Runtime.mem (Signal.s_chan (bridge (rt w0)))
                          (Runtime.handlers (rt (state_of (Cleanup cr1 w)))) = false).
  { rewrite (Cleanup_runtime _ _ _ w B1). apply SignalFacts.stop_releases. }
  pose proof (steps_unsubscribed options _ later (Signal.s_chan (bridge (rt w0)))
                cr1 (state_of (Cleanup cr1 w)) B1 H) as S2.
  destruct (steps (cr1, state_of (Cleanup cr1 w)) later) as [cr2 w2].
  cbn [snd]. destruct S2 as [H2 F2]. split; [exact H|]. split; [exact H2|exact F2].
Qed.

(** *** Two managers in one process *)

Lemma Forall_add (P : nat -> Prop) (x : nat) (l : list nat) :
  P x -> Forall P l -> Forall P (Runtime.add x l).
Proof.
  intros Hx F. unfold Runtime.add. destruct (Runtime.mem x l); [assumption|].
  constructor; assumption.
Qed.

Lemma Forall_below (n m : nat) (l : list nat) :
  n <= m -> Forall (fun c => c < n) l -> Forall (fun c => c < m) l.
Proof. intros L F. eapply Forall_impl; [|exact F]. cbv beta. intros; lia. Qed.

(** [New] keeps the runtime's identities allocated. *)
Lemma New_allocated options w0 cr w1 :
  New options w0 = (Some cr, None, w1) -> allocated (rt w0) -> allocated (rt w1).
Proof.
  intros N W. destruct (New_installed _ _ _ _ N W) as [_ R]. rewrite R.
  destruct W as (H & Bf & C & D & G). unfold allocated.
  cbn [Runtime.watchers Runtime.buffered Runtime.handlers Runtime.fresh
       Runtime.cancelled Runtime.closed].
  repeat split.
  - apply Forall_add; [lia|]. eapply Forall_below; [|exact H]. lia.
  - eapply Forall_below; [|exact Bf]. lia.
  - eapply Forall_below; [|exact C]. lia.
  - eapply Forall_below; [|exact D]. lia.
  - apply Forall_app. split.
    + eapply Forall_impl; [|exact G]. cbv beta. intros g (G1 & G2 & G3).
      repeat split; try lia. destruct (Runtime.w_done g); [lia|exact I].
    + constructor; [|constructor]. cbn. repeat split; lia.
Qed.

(** X11: two managers built in the same process each own their bridge: teardown
    of the first leaves the second's channel subscribed and the second's
    root context live, while the first's channel is unsubscribed and the
    first's root context is done. *)
Theorem managers_do_not_interfere (o1 o2 : RootCommandOptions A) w0 cr1 w1 cr2 w2 :
  New o1 w0 = (Some cr1, None, w1) ->
  New o2 w1 = (Some cr2, None, w2) ->
  allocated (rt w0) ->
  let torn := rt (state_of (Cleanup cr1 w2)) in
  Runtime.mem (Signal.s_chan (bridge (rt w1))) (Runtime.handlers torn) = true
  /\ Runtime.mem (Signal.s_chan (bridge (rt w0))) (Runtime.handlers torn) = false
  /\ Runtime.done torn (signalCtx (rt w1)) = false
  /\ Runtime.done torn (signalCtx (rt w0)) = true.
Proof.
  intros N1 N2 W.
  pose proof (New_allocated _ _ _ _ N1 W) as W1.
  destruct (New_installed _ _ _ _ N1 W) as [B1 R1].
  destruct (New_installed _ _ _ _ N2 W1) as [_ R2].
  pose proof (allocated_fresh (rt w0) 2 W) as (_ & _ & C2 & _).
  cbn zeta. rewrite (Cleanup_runtime _ _ _ w2 B1), R2.
  rewrite !bridge_eq, !signalCtx_eq. rewrite R1.
  set (n := Runtime.fresh (rt w0)) in *.
  unfold Signal.stop, Runtime.Stop, Runtime.cancel, Runtime.done.
  cbn [Signal.s_chan Signal.s_cancel Runtime.watchers Runtime.buffered
       Runtime.handlers Runtime.fresh Runtime.cancelled Runtime.closed
       GoContext.cancels existsb].
  repeat split.
  - rewrite mem_remove_other by lia. apply RuntimeFacts.mem_add.
  - apply Bool.not_true_is_false. intro E.
    apply RuntimeFacts.mem_In in E. now apply RuntimeFacts.remove_not_In in E.
  - rewrite orb_false_r, mem_add_other by lia.
    replace (S (S n)) with (n + 2) by lia. exact C2.
  - rewrite orb_false_r. apply RuntimeFacts.mem_add.
Qed.

End WithApp.

End CancellationFacts.

(** ** Teardown in the variant whose hook sets up the bridge *)

Module HookBridgeLifeFacts.
Import CommandlineHookBridge Terms RuntimeFacts BridgeFacts.

Section WithApp.
Context {A : Type}.
Implicit Types (options : RootCommandOptions A) (w : World A) (s : State A)
         (cr : CLI A).

Lemma New_chained options w0 cr s1 :
  New options w0 = (Some cr, None, s1) ->
  chained_from options cr /\ s1 = mkState w0 (mkEnv None None).
Proof.
  intro N. pose proof (HookBridgeFacts.hook_bridge_New_Some _ _ _ _ _ N) as V.
  destruct (HookBridgeFacts.hook_bridge_New_valid options w0 V) as (root0 & E & _).
  rewrite E in N. inversion N; subst. split; reflexivity.
Qed.

(** What one firing of the hook leaves. *)
Lemma fired_state options cmd s parent :
  Cobra.Context cmd = Some parent ->
  let ctx := fold_left (fun ctx m => m ctx) (Modifiers options)
               (Logging.AddToContext parent
                  (Logging.New (Cobra.ErrOrStderr cmd) (level_of (Cobra.GetCount cmd)))) in
  let r := rt (world s) in
  PersistentPreRunE options cmd s =
  Returns (Cobra.SetContext cmd (GoContext.cancelCtx ctx (Runtime.fresh r)),
           mkState
             (mkWorld
                (Runtime.mk (3 + Runtime.fresh r)
                   (Runtime.add (2 + Runtime.fresh r) (Runtime.handlers r))
                   (Runtime.buffered r)
                   (Runtime.watchers r ++ [hook_watcher ctx r])
                   (Runtime.cancelled r) (Runtime.closed r))
                (app (world s)))
             (mkEnv (Some (Runtime.fresh r)) (Some (1 + Runtime.fresh r)))).
Proof. intro H. unfold PersistentPreRunE. rewrite H. reflexivity. Qed.

Lemma find_done_last (d i : nat) (ws : list Runtime.Watcher) (g : Runtime.Watcher) :
  Forall (fun g' => Runtime.w_done g' <> Some d) ws ->
  Runtime.w_done g = Some d ->
  Runtime.find_done d i (ws ++ [g]) = Some (i + length ws, g).
Proof.
  intros F G. revert i. induction F as [|g' ws Hg F IH]; intro i; cbn [Datatypes.app Runtime.find_done Datatypes.length].
  - rewrite G, Nat.eqb_refl. f_equal. f_equal. lia.
  - destruct (Runtime.w_done g') as [d'|] eqn:E.
    + destruct (Nat.eqb_spec d d') as [->|_]; [contradiction|].
      rewrite IH. f_equal. f_equal. lia.
    + rewrite IH. f_equal. f_equal. lia.
Qed.

Lemma allocated_no_done (r : Runtime.T) (k : nat) :
  allocated r ->
  Forall (fun g' => Runtime.w_done g' <> Some (Runtime.fresh r + k)) (Runtime.watchers r).
Proof.
  intros (_ & _ & _ & _ & G). eapply Forall_impl; [|exact G]. cbv beta.
  intros g (_ & _ & D) E. rewrite E in D. lia.
Qed.

(** After a firing, the internal cleanup cancels that firing's context,
    waits for that firing's watcher, and so undoes that firing's
    subscription and goroutine; it never parks for ever. *)
Lemma internal_cleanup_joins (ctx : GoContext.Context) (r : Runtime.T) (a : A) :
  allocated r ->
  internal_cleanup
    (mkState (mkWorld (fired_rt ctx r) a)
             (mkEnv (Some (Runtime.fresh r)) (Some (1 + Runtime.fresh r))))
  = Finished
      (mkState (mkWorld (joined_rt r) a)
               (mkEnv (Some (Runtime.fresh r)) (Some (1 + Runtime.fresh r)))).
Proof.
  intro W.
  pose proof (allocated_fresh r 1 W) as (_ & _ & _ & D1).
  pose proof (allocated_fresh r 2 W) as (H2 & B2 & _ & _).
  pose proof (allocated_no_done r 1 W) as ND.
  rewrite Nat.add_1_r in D1, ND. replace (Runtime.fresh r + 2) with (S (S (Runtime.fresh r))) in * by lia.
  unfold internal_cleanup.
  cbn [env world cancelFunc signalDone rt app].
  unfold Runtime.await, fired_rt, Runtime.cancel.
  cbn [Runtime.watchers Runtime.buffered Runtime.handlers Runtime.fresh
       Runtime.cancelled Runtime.closed Nat.add].
  rewrite D1.
  rewrite (find_done_last _ 0 _ (hook_watcher ctx r) ND eq_refl).
  cbn [Nat.add hook_watcher Runtime.w_chan Runtime.w_ctx].
  rewrite B2. cbn [orb].
  assert (D : forall hs ws,
             Runtime.done
               (Runtime.mk (S (S (S (Runtime.fresh r)))) hs (Runtime.buffered r) ws
                           (Runtime.add (Runtime.fresh r) (Runtime.cancelled r))
                           (Runtime.closed r))
               (GoContext.cancelCtx ctx (Runtime.fresh r)) = true).
  { intros hs ws. apply (done_In _ _ (Runtime.fresh r)); [left; reflexivity|].
    apply RuntimeFacts.mem_add. }
  rewrite D.
  unfold Runtime.wake.
  cbn [Runtime.watchers Runtime.buffered Runtime.handlers Runtime.fresh
       Runtime.cancelled Runtime.closed].
  fold (hook_watcher ctx r). rewrite nth_error_last.
  cbn [hook_watcher Runtime.w_chan Runtime.w_ctx].
  rewrite B2, D. cbn [andb].
  unfold Runtime.leave, Runtime.Stop, Runtime.close.
  cbn [Runtime.watchers Runtime.buffered Runtime.handlers Runtime.fresh
       Runtime.cancelled Runtime.closed Runtime.w_stop Runtime.w_done Runtime.w_chan
       hook_watcher].
  rewrite drop_nth_last.
  rewrite (remove_add_fresh _ _ H2). reflexivity.
Qed.

Lemma fired_allocated (ctx : GoContext.Context) (r : Runtime.T) :
  allocated r -> allocated (fired_rt ctx r).
Proof.
  intros (H & Bf & C & D & G). unfold allocated, fired_rt.
  cbn [Runtime.watchers Runtime.buffered Runtime.handlers Runtime.fresh
       Runtime.cancelled Runtime.closed].
  repeat split.
  - apply CancellationFacts.Forall_add; [lia|].
    eapply CancellationFacts.Forall_below; [|exact H]. lia.
  - eapply CancellationFacts.Forall_below; [|exact Bf]. lia.
  - eapply CancellationFacts.Forall_below; [|exact C]. lia.
  - eapply CancellationFacts.Forall_below; [|exact D]. lia.
  - apply Forall_app. split.
    + eapply Forall_impl; [|exact G]. cbv beta. intros g (G1 & G2 & G3).
      repeat split; try lia. destruct (Runtime.w_done g); [lia|exact I].
    + constructor; [|constructor]. cbn. repeat split; lia.
Qed.

Lemma Cleanup_after_firing options w0 cr s1 cmd parent s cmd' s' :
  New options w0 = (Some cr, None, s1) ->
  allocated (rt (world s)) ->
  Cobra.Context cmd = Some parent ->
  PersistentPreRunE options cmd s = Returns (cmd', s') ->
  Forall returns (CleanupFuncs options) ->
  exists s'',
    Cleanup cr s' = Finished s''
    /\ Runtime.mem (2 + Runtime.fresh (rt (world s)))
                   (Runtime.handlers (rt (world s'))) = true
    /\ app (world s'') = apps (CleanupFuncs options) (rt (world s')) (app (world s))
    /\ Runtime.handlers (rt (world s'')) = Runtime.handlers (rt (world s))
    /\ Runtime.watchers (rt (world s'')) = Runtime.watchers (rt (world s))
    /\ (forall ctx', Cobra.Context cmd' = Some ctx' ->
                     Runtime.done (rt (world s'')) ctx' = true).
Proof.
  intros N W H E F. destruct (New_chained _ _ _ _ N) as [C _].
  rewrite (fired_state options cmd s parent H) in E. cbn zeta in E.
  inversion E; subst cmd' s'. clear E.
  set (ctx := fold_left _ _ _).
  unfold Cleanup. rewrite C, HookBridgeFacts.range_call_app.
  rewrite (HookBridgeFacts.range_call_users _ _ F).
  cbn [world env rt app range_call].
  change (Runtime.mk _ _ _ _ _ _) with (fired_rt ctx (rt (world s))).
  change (1 + Runtime.fresh (rt (world s))) with (S (Runtime.fresh (rt (world s)))).
  pose proof (internal_cleanup_joins ctx (rt (world s))
                (apps (CleanupFuncs options) (fired_rt ctx (rt (world s))) (app (world s)))
                W) as J.
  cbn [Nat.add] in J. rewrite J.
  eexists. split; [reflexivity|].
  cbn [world rt app joined_rt fired_rt Runtime.handlers Runtime.watchers].
  split; [apply RuntimeFacts.mem_add|]. split; [reflexivity|].
  split; [reflexivity|]. split; [reflexivity|].
  intros ctx' K. cbn in K. inversion K; subst ctx'.
  apply (done_In _ _ (Runtime.fresh (rt (world s)))); [left; reflexivity|].
  cbn [Runtime.cancelled]. apply RuntimeFacts.mem_add.
Qed.

(** X12: with the bridge set up by the hook, teardown after a firing runs to
    its end whenever the caller's procedures do and never parks on the
    watcher: the caller's procedures run first, while that firing's
    subscription is still live; then that firing's context is cancelled and
    its watcher joined, which leaves the process with exactly the
    subscriptions and goroutines it had before that firing. *)
Theorem Cleanup_undoes_last_firing options w0 cr s1 cmd parent s cmd' s' :
  New options w0 = (Some cr, None, s1) ->
  allocated (rt (world s)) ->
  Cobra.Context cmd = Some parent ->
  PersistentPreRunE options cmd s = Returns (cmd', s') ->
  Forall returns (CleanupFuncs options) ->
  exists s'',
    Cleanup cr s' = Finished s''
    /\ Runtime.mem (2 + Runtime.fresh (rt (world s)))
                   (Runtime.handlers (rt (world s'))) = true
    /\ app (world s'') = apps (CleanupFuncs options) (rt (world s')) (app (world s))
    /\ Runtime.handlers (rt (world s'')) = Runtime.handlers (rt (world s))
    /\ Runtime.watchers (rt (world s'')) = Runtime.watchers (rt (world s))
    /\ (forall ctx', Cobra.Context cmd' = Some ctx' ->
                     Runtime.done (rt (world s'')) ctx' = true).
Proof. exact (Cleanup_after_firing options w0 cr s1 cmd parent s cmd' s'). Qed.

(** X13: with the bridge set up by the hook, teardown releases only what the
    last firing set up: when the hook has fired twice, the channel the
    first firing subscribed is still subscribed after [Cleanup], and the
    first firing's goroutine is still there. *)
Theorem earlier_firing_outlives_Cleanup options w0 cr s1
        cmd1 parent1 cmd1' s2 cmd2 parent2 cmd2' s3 :
  New options w0 = (Some cr, None, s1) ->
  allocated (rt w0) ->
  Cobra.Context cmd1 = Some parent1 ->
  PersistentPreRunE options cmd1 s1 = Returns (cmd1', s2) ->
  Cobra.Context cmd2 = Some parent2 ->
  PersistentPreRunE options cmd2 s2 = Returns (cmd2', s3) ->
  Forall returns (CleanupFuncs options) ->
  exists s4,
    Cleanup cr s3 = Finished s4
    /\ Runtime.mem (2 + Runtime.fresh (rt w0)) (Runtime.handlers (rt (world s4))) = true
    /\ length (Runtime.watchers (rt (world s4))) = S (length (Runtime.watchers (rt w0)))
    /\ Runtime.handlers (rt (world s4)) = Runtime.handlers (rt (world s2)).
Proof.
  intros N W H1 E1 H2 E2 F.
  destruct (New_chained _ _ _ _ N) as [_ ->].
  pose proof E1 as E1'.
  rewrite (fired_state options cmd1 _ parent1 H1) in E1'. cbn zeta in E1'.
  inversion E1' as [[Ec Es]]. clear E1'.
  assert (W2 : allocated (rt (world s2))).
  { rewrite <- Es. cbn [world rt]. apply (fired_allocated _ _ W). }
  destruct (Cleanup_after_firing options w0 cr _ cmd2 parent2 s2 cmd2' s3
              N W2 H2 E2 F) as (s4 & C & _ & _ & Hh & Hw & _).
  exists s4. split; [exact C|]. rewrite Hh, Hw, <- Es.
  cbn [world rt Runtime.handlers Runtime.watchers].
  split; [apply RuntimeFacts.mem_add|]. split; [|reflexivity].
  rewrite length_app. cbn. lia.
Qed.

(** X14: with the bridge set up by the hook, the caller's procedures run before
    the internal cleanup and on the runtime as teardown found it; when one
    of them panics, the internal cleanup is never reached and the runtime,
    subscriptions and goroutines included, stays as it was. *)
Theorem callers_run_before_internal_cleanup options w0 cr s1 s :
  New options w0 = (Some cr, None, s1) ->
  Cleanup cr s =
  match range_call (map user_func (CleanupFuncs options)) s with
  | Finished s' => internal_cleanup s'
  | other => other
  end
  /\ rt (world (state_of (range_call (map user_func (CleanupFuncs options)) s)))
     = rt (world s)
  /\ (forall msg s',
         range_call (map user_func (CleanupFuncs options)) s = Aborted msg s' ->
         Cleanup cr s = Aborted msg s' /\ rt (world s') = rt (world s)).
Proof.
  intro N. destruct (New_chained _ _ _ _ N) as [C _].
  assert (R : forall (fs : list (Proc A)) (x : State A),
             rt (world (state_of (range_call (map user_func fs) x))) = rt (world x)).
  { induction fs as [|f fs IH]; intro x; [reflexivity|].
    cbn [map range_call]. unfold user_func at 1, call.
    destruct (f (rt (world x)) (app (world x))) as [a|m a|a]; cbn [run_map];
      [rewrite IH|..]; reflexivity. }
  assert (E : Cleanup cr s =
              match range_call (map user_func (CleanupFuncs options)) s with
              | Finished s' => internal_cleanup s'
              | other => other
              end).
  { unfold Cleanup. rewrite C, HookBridgeFacts.range_call_app.
    destruct (range_call (map user_func (CleanupFuncs options)) s) as [x|m x|x];
      try reflexivity.
    cbn [range_call]. destruct (internal_cleanup x); reflexivity. }
  split; [exact E|]. split; [apply R|].
  intros msg s' X. rewrite E, X. split; [reflexivity|].
  specialize (R (CleanupFuncs options) s). now rewrite X in R.
Qed.

End WithApp.

End HookBridgeLifeFacts.

(** ** Subscriptions in commandline/registry.go *)

Module RegistryLifeFacts.
Import CommandlineRegistry Terms RuntimeFacts BridgeFacts.

Section WithApp.
Context {A : Type}.
Implicit Types (options : RootCommandOptions) (w : World A).

Lemma Forall_drop_nth {X : Type} (P : X -> Prop) (i : nat) (l : list X) :
  Forall P l -> Forall P (Runtime.drop_nth i l).
Proof.
  intro F. revert i. induction F as [|x l Hx F IH]; intros [|i]; simpl;
    try constructor; auto.
Qed.

(** In a runtime whose goroutines never unsubscribe, neither a delivered
    signal nor a scheduled goroutine changes the subscriptions. *)
Lemma happen_never_stops (r : Runtime.T) (e : Event) :
  never_stops r ->
  Runtime.handlers (happen r e) = Runtime.handlers r /\ never_stops (happen r e).
Proof.
  intro NS. destruct e as [|i b]; cbn [happen]; [split; [reflexivity|exact NS]|].
  assert (L : forall g x, Runtime.w_stop g = false -> never_stops x ->
                          Runtime.handlers (Runtime.leave i g x) = Runtime.handlers x
                          /\ never_stops (Runtime.leave i g x)).
  { intros g x G N. unfold Runtime.leave. rewrite G.
    destruct (Runtime.w_done g); cbn; split; try reflexivity;
      apply Forall_drop_nth, N. }
  unfold Runtime.wake. destruct (nth_error (Runtime.watchers r) i) as [g|] eqn:E;
    [|split; [reflexivity|exact NS]].
  assert (G : Runtime.w_stop g = false).
  { unfold never_stops in NS. rewrite Forall_forall in NS.
    apply NS. eapply nth_error_In, E. }
  destruct (Runtime.mem (Runtime.w_chan g) (Runtime.buffered r)
            && (b || negb (Runtime.done r (Runtime.w_ctx g)))).
  - unfold Runtime.take_signal.
    match goal with |- context [Runtime.leave i g ?x] =>
      destruct (L g x G) as [L1 L2]; [exact NS|] end.
    split; [rewrite L1; reflexivity|exact L2].
  - destruct (Runtime.done r (Runtime.w_ctx g)); [apply (L g r G NS)|].
    split; [reflexivity|exact NS].
Qed.

Lemma happenings_never_stop (events : list Event) : forall r,
  never_stops r ->
  Runtime.handlers (fold_left happen events r) = Runtime.handlers r.
Proof.
  induction events as [|e events IH]; intros r NS; [reflexivity|].
  cbn [fold_left]. destruct (happen_never_stops r e NS) as [H NS'].
  now rewrite (IH _ NS'), H.
Qed.

(** What one firing of the hook does to an allocated runtime. *)
Lemma registry_firing options cmd w parent :
  Cobra.Context cmd = Some parent ->
  allocated (rt w) -> never_stops (rt w) ->
  exists cmd' w',
    PersistentPreRunE options cmd w = Returns (cmd', w')
    /\ length (Runtime.handlers (rt w')) = S (length (Runtime.handlers (rt w)))
    /\ length (Runtime.watchers (rt w')) = S (length (Runtime.watchers (rt w)))
    /\ allocated (rt w') /\ never_stops (rt w').
Proof.
  intros H W NS. unfold PersistentPreRunE. rewrite H.
  eexists. eexists. split; [reflexivity|].
  pose proof (allocated_fresh (rt w) 1 W) as (H1 & _).
  rewrite Nat.add_1_r in H1.
  cbn [rt Runtime.WithCancel Runtime.make_chan Runtime.Notify Runtime.go
       Runtime.handlers Runtime.watchers Runtime.fresh Runtime.buffered
       Runtime.cancelled Runtime.closed].
  split; [|split; [|split]].
  - unfold Runtime.add. rewrite H1. reflexivity.
  - rewrite length_app. cbn. lia.
  - destruct W as (Hh & Bf & C & D & G). unfold allocated.
    cbn [rt Runtime.WithCancel Runtime.make_chan Runtime.Notify Runtime.go
         Runtime.watchers Runtime.buffered Runtime.handlers Runtime.fresh
         Runtime.cancelled Runtime.closed].
    repeat split.
    + apply CancellationFacts.Forall_add; [lia|].
      eapply CancellationFacts.Forall_below; [|exact Hh]. lia.
    + eapply CancellationFacts.Forall_below; [|exact Bf]. lia.
    + eapply CancellationFacts.Forall_below; [|exact C]. lia.
    + eapply CancellationFacts.Forall_below; [|exact D]. lia.
    + apply Forall_app. split.
      * eapply Forall_impl; [|exact G]. cbv beta. intros g (G1 & G2 & G3).
        repeat split; try lia. destruct (Runtime.w_done g); [lia|exact I].
      * constructor; [|constructor]. cbn. repeat split; lia.
  - unfold never_stops.
    cbn [rt Runtime.WithCancel Runtime.make_chan Runtime.Notify Runtime.go
         Runtime.watchers]. apply Forall_app. split; [exact NS|].
    constructor; [reflexivity|constructor].
Qed.

(** X15: in [registry.go] subscriptions only accumulate: every firing of the
    hook on a command that has a context subscribes one more channel and
    starts one more goroutine, and afterwards no delivered signal and no
    scheduled goroutine ever unsubscribes one. *)
Theorem registry_subscriptions_accumulate options (cmds : list Cobra.Command) w :
  allocated (rt w) ->
  never_stops (rt w) ->
  Forall (fun cmd => Cobra.Context cmd <> None) cmds ->
  let w' := registry_fired options cmds w in
  length (Runtime.handlers (rt w')) = length cmds + length (Runtime.handlers (rt w))
  /\ length (Runtime.watchers (rt w')) = length cmds + length (Runtime.watchers (rt w))
  /\ (forall events,
         Runtime.handlers (fold_left happen events (rt w')) = Runtime.handlers (rt w')).
Proof.
  intros W NS F. cbn zeta.
  assert (G : length (Runtime.handlers (rt (registry_fired options cmds w)))
              = length cmds + length (Runtime.handlers (rt w))
              /\ length (Runtime.watchers (rt (registry_fired options cmds w)))
                 = length cmds + length (Runtime.watchers (rt w))
              /\ never_stops (rt (registry_fired options cmds w))).
  { revert w W NS. induction F as [|cmd cmds Hc F IH]; intros w W NS.
    - cbn. repeat split; assumption.
    - destruct (Cobra.Context cmd) as [parent|] eqn:E; [|contradiction].
      destruct (registry_firing options cmd w parent E W NS)
        as (cmd' & w' & P & L1 & L2 & W' & NS').
      cbn [registry_fired]. rewrite P.
      destruct (IH w' W' NS') as (I1 & I2 & I3).
      rewrite I1, I2, L1, L2. cbn [length]. repeat split; try lia. exact I3. }
  destruct G as (G1 & G2 & G3). split; [exact G1|]. split; [exact G2|].
  intro events. apply happenings_never_stop, G3.
Qed.

End WithApp.

End RegistryLifeFacts.

(** ** Construction in the variants whose hook subscribes *)

Module ConstructionFacts.
Import Terms.

(** X16: in the two variants whose hook subscribes, [New] itself never touches
    the process: whether it succeeds or fails, no channel is subscribed and
    no goroutine started at construction (the captured variables start out
    nil); and it fails exactly when the name or the version is empty. *)
Theorem New_subscribes_nothing (A : Type) :
  (forall (options : CommandlineRegistry.RootCommandOptions) (w : World A),
      let '(cli, err, w') := CommandlineRegistry.New options w in
      w' = w
      /\ ((cli = None /\ err <> None)
          <-> (CommandlineRegistry.Name options = ""
               \/ CommandlineRegistry.Version options = "")))
  /\ (forall (options : CommandlineHookBridge.RootCommandOptions A) (w : World A),
         let '(cli, err, s) := CommandlineHookBridge.New options w in
         CommandlineHookBridge.world s = w
         /\ CommandlineHookBridge.env s = CommandlineHookBridge.mkEnv None None
         /\ ((cli = None /\ err <> None)
             <-> (CommandlineHookBridge.Name options = ""
                  \/ CommandlineHookBridge.Version options = ""))).
Proof.
  split.
  - intros options w. unfold CommandlineRegistry.New, CommandlineRegistry.validate.
    destruct (String.eqb_spec (CommandlineRegistry.Name options) "") as [En|En].
    + split; [reflexivity|]. split; [auto|]. intros _. split; congruence.
    + destruct (String.eqb_spec (CommandlineRegistry.Version options) "") as [Ev|Ev].
      * split; [reflexivity|]. split; [auto|]. intros _. split; congruence.
      * split; [reflexivity|]. split; [intros [H _]; discriminate|tauto].
  - intros options w. unfold CommandlineHookBridge.New, CommandlineHookBridge.validate.
    destruct (String.eqb_spec (CommandlineHookBridge.Name options) "") as [En|En].
    + split; [reflexivity|]. split; [reflexivity|]. split; [auto|].
      intros _. split; congruence.
    + destruct (String.eqb_spec (CommandlineHookBridge.Version options) "") as [Ev|Ev].
      * split; [reflexivity|]. split; [reflexivity|]. split; [auto|].
        intros _. split; congruence.
      * split; [reflexivity|]. split; [reflexivity|].
        split; [intros [H _]; discriminate|tauto].
Qed.

End ConstructionFacts.

(** ** More concrete runs *)

Module MoreRuns.
Import Scenario Terms.

Lemma allocated_start : allocated (rt start).
Proof. exact BridgeFacts.allocated_init. Qed.

Lemma New_second :
  Commandline.New demo demo_world = (Some second_cli, None, second_world).
Proof. reflexivity. Qed.

Lemma demo_modifiers_extend : Forall extends (Commandline.Modifiers demo).
Proof. repeat constructor; intro ctx; apply incl_refl. Qed.

Lemma hook_bridge_cleanups_return :
  Forall returns (CommandlineHookBridge.CleanupFuncs demo_hook_bridge).
Proof. repeat constructor; apply Runs.probe_returns. Qed.

Lemma once_fired_eq :
  CommandlineHookBridge.PersistentPreRunE demo_hook_bridge running_cmd
    demo_hook_bridge_state
  = Returns (fst once_fired, snd once_fired).
Proof. reflexivity. Qed.

Lemma twice_fired_eq :
  CommandlineHookBridge.PersistentPreRunE demo_hook_bridge running_cmd (snd once_fired)
  = Returns (fst twice_fired, snd twice_fired).
Proof. reflexivity. Qed.

Lemma New_panicking :
  Commandline.New demo_panicking start = (Some panicking_cli, None, demo_world).
Proof. reflexivity. Qed.

(** C2, as stated, fails: with a first cleanup procedure that panics,
    [Cleanup] releases the bridge and then unwinds out of the loop; the
    second procedure never runs, so the log stays empty where the two
    procedures run one after the other would have left a line. *)
Lemma Cleanup_stops_at_panicking_procedure :
  Commandline.New demo_panicking start = (Some panicking_cli, None, demo_world)
  /\ Commandline.Cleanup panicking_cli demo_world
     = Aborted "cleanup failed"
               (mkWorld (Signal.stop (bridge Runtime.init) (installed Runtime.init)) [])
  /\ app (state_of (Commandline.Cleanup panicking_cli demo_world)) = []
  /\ apps (Commandline.CleanupFuncs demo_panicking)
          (rt (state_of (Commandline.Cleanup panicking_cli demo_world)))
          (app demo_world)
     = ["user2"]
  /\ ~ Cleanup_runs_every_procedure (A := Log).
Proof.
  split; [reflexivity|]. split; [reflexivity|]. split; [reflexivity|].
  split; [reflexivity|].
  intro R.
  specialize (R demo_panicking start panicking_cli demo_world New_panicking).
  assert (NE : Commandline.CleanupFuncs demo_panicking <> []) by discriminate.
  specialize (R NE). discriminate R.
Qed.

Lemma hook_installs_its_logger_witness :
  Cobra.Context running_cmd = Some GoContext.Background
  /\ exists cmd' ctx',
      Commandline.PersistentPreRunE demo running_cmd start = Returns (cmd', start)
      /\ Cobra.Context cmd' = Some ctx'
      /\ Logging.FromContext ctx'
         = Returns (Logging.New Logrus.Stderr Logrus.WarnLevel).
Proof.
  split; [reflexivity|].
  exact (proj1 (HookFacts.hook_installs_its_logger Log running_cmd
                  GoContext.Background eq_refl)
               demo start Runs.demo_modifiers_keep_logger).
Defined.

Lemma signal_cancels_execution_context_witness :
  Commandline.New demo start = (Some demo_cli, None, demo_world)
  /\ allocated (rt start)
  /\ Runtime.done (rt demo_world) (signalCtx (rt start)) = false
  /\ Runtime.done
       (Runtime.wake (length (Runtime.watchers (rt start))) true
                     (Runtime.deliver (rt demo_world)))
       (hook_ctx demo (signalCtx (rt start)) Logrus.Stderr 0) = true.
Proof.
  split; [reflexivity|]. split; [exact allocated_start|].
  pose proof (CancellationFacts.signal_cancels_execution_context
                demo start demo_cli demo_world true Runs.New_demo allocated_start)
    as (D & I & C & _).
  split; [exact D|].
  exact (C _ (I Logrus.Stderr 0%Z demo_modifiers_extend)).
Defined.

Lemma Cleanup_ends_bridge_witness :
  Commandline.New demo start = (Some demo_cli, None, demo_world)
  /\ allocated (rt start)
  /\ Runtime.handlers (rt (state_of (Commandline.Cleanup demo_cli demo_world)))
     = Runtime.handlers (rt start)
  /\ Runtime.watchers
       (Runtime.wake (length (Runtime.watchers (rt start))) false
                     (rt (state_of (Commandline.Cleanup demo_cli demo_world))))
     = Runtime.watchers (rt start).
Proof.
  split; [reflexivity|]. split; [exact allocated_start|].
  pose proof (CancellationFacts.Cleanup_ends_bridge
                demo start demo_cli demo_world false Runs.New_demo allocated_start)
    as (_ & H & _ & G).
  split; [exact H|exact G].
Defined.

Lemma no_signal_after_Cleanup_witness :
  Commandline.New demo start = (Some demo_cli, None, demo_world)
  /\ Runtime.mem (Signal.s_chan (bridge (rt start)))
                 (Runtime.buffered
                    (rt (snd (Commandline.steps
                                (Commandline.steps
                                   (demo_cli, demo_world)
                                   ([Commandline.FireHook running_cmd]
                                      ++ [Commandline.CallCleanup]))
                                [Commandline.SignalArrives;
                                 Commandline.Schedule 0 true;
                                 Commandline.SignalArrives]))))
     = false.
Proof.
  split; [reflexivity|].
  exact (proj2 (proj2 (CancellationFacts.no_signal_after_Cleanup
                         demo start demo_cli demo_world
                         [Commandline.FireHook running_cmd]
                         [Commandline.SignalArrives; Commandline.Schedule 0 true;
                          Commandline.SignalArrives]
                         Runs.New_demo))
               eq_refl).
Defined.

Lemma cancellation_is_final_witness :
  Commandline.New demo start = (Some demo_cli, None, demo_world)
  /\ Runtime.done
       (rt (snd (Commandline.steps (demo_cli, demo_world)
                   [Commandline.SignalArrives; Commandline.Schedule 0 true])))
       (signalCtx (rt start)) = true
  /\ Runtime.done
       (rt (snd (Commandline.steps (demo_cli, demo_world)
                   ([Commandline.SignalArrives; Commandline.Schedule 0 true]
                      ++ busy_life))))
       (signalCtx (rt start)) = true.
Proof.
  split; [reflexivity|]. split; [reflexivity|].
  exact (CancellationFacts.cancellation_is_final
           demo start demo_cli demo_world
           [Commandline.SignalArrives; Commandline.Schedule 0 true] busy_life
           (signalCtx (rt start)) Runs.New_demo eq_refl).
Defined.

Lemma managers_do_not_interfere_witness :
  Commandline.New demo start = (Some demo_cli, None, demo_world)
  /\ Commandline.New demo demo_world = (Some second_cli, None, second_world)
  /\ allocated (rt start)
  /\ Runtime.mem (Signal.s_chan (bridge (rt demo_world)))
                 (Runtime.handlers
                    (rt (state_of (Commandline.Cleanup demo_cli second_world)))) = true
  /\ Runtime.done (rt (state_of (Commandline.Cleanup demo_cli second_world)))
                  (signalCtx (rt demo_world)) = false.
Proof.
  split; [reflexivity|]. split; [reflexivity|]. split; [exact allocated_start|].
  pose proof (CancellationFacts.managers_do_not_interfere
                demo demo start demo_cli demo_world second_cli second_world
                Runs.New_demo New_second allocated_start) as (H & _ & D & _).
  split; [exact H|exact D].
Defined.

Lemma Cleanup_undoes_last_firing_witness :
  CommandlineHookBridge.New demo_hook_bridge start
  = (Some demo_hook_bridge_cli, None, demo_hook_bridge_state)
  /\ allocated (rt (CommandlineHookBridge.world demo_hook_bridge_state))
  /\ Cobra.Context running_cmd = Some GoContext.Background
  /\ CommandlineHookBridge.PersistentPreRunE demo_hook_bridge running_cmd
       demo_hook_bridge_state
     = Returns (fst once_fired, snd once_fired)
  /\ Forall returns (CommandlineHookBridge.CleanupFuncs demo_hook_bridge)
  /\ exists s'',
      CommandlineHookBridge.Cleanup demo_hook_bridge_cli (snd once_fired) = Finished s''
      /\ Runtime.handlers (rt (CommandlineHookBridge.world s'')) = []
      /\ Runtime.watchers (rt (CommandlineHookBridge.world s'')) = [].
Proof.
  split; [reflexivity|]. split; [exact allocated_start|]. split; [reflexivity|].
  split; [reflexivity|]. split; [exact hook_bridge_cleanups_return|].
  destruct (HookBridgeLifeFacts.Cleanup_undoes_last_firing
              demo_hook_bridge start demo_hook_bridge_cli demo_hook_bridge_state
              running_cmd GoContext.Background demo_hook_bridge_state
              (fst once_fired) (snd once_fired)
              Runs.New_demo_hook_bridge allocated_start eq_refl once_fired_eq
              hook_bridge_cleanups_return)
    as (s'' & C & _ & _ & H & G & _).
  exists s''. split; [exact C|]. split; [exact H|exact G].
Defined.

Lemma earlier_firing_outlives_Cleanup_witness :
  CommandlineHookBridge.New demo_hook_bridge start
  = (Some demo_hook_bridge_cli, None, demo_hook_bridge_state)
  /\ allocated (rt start)
  /\ Cobra.Context running_cmd = Some GoContext.Background
  /\ CommandlineHookBridge.PersistentPreRunE demo_hook_bridge running_cmd
       demo_hook_bridge_state
     = Returns (fst once_fired, snd once_fired)
  /\ CommandlineHookBridge.PersistentPreRunE demo_hook_bridge running_cmd (snd once_fired)
     = Returns (fst twice_fired, snd twice_fired)
  /\ Forall returns (CommandlineHookBridge.CleanupFuncs demo_hook_bridge)
  /\ exists s4,
      CommandlineHookBridge.Cleanup demo_hook_bridge_cli (snd twice_fired) = Finished s4
      /\ Runtime.mem 2 (Runtime.handlers (rt (CommandlineHookBridge.world s4))) = true
      /\ length (Runtime.watchers (rt (CommandlineHookBridge.world s4))) = 1.
Proof.
  split; [reflexivity|]. split; [exact allocated_start|]. split; [reflexivity|].
  split; [reflexivity|]. split; [reflexivity|].
  split; [exact hook_bridge_cleanups_return|].
  destruct (HookBridgeLifeFacts.earlier_firing_outlives_Cleanup
              demo_hook_bridge start demo_hook_bridge_cli demo_hook_bridge_state
              running_cmd GoContext.Background (fst once_fired) (snd once_fired)
              running_cmd GoContext.Background (fst twice_fired) (snd twice_fired)
              Runs.New_demo_hook_bridge allocated_start eq_refl once_fired_eq
              eq_refl twice_fired_eq hook_bridge_cleanups_return)
    as (s4 & C & M & L & _).
  exists s4. split; [exact C|]. split; [exact M|exact L].
Defined.

Lemma New_demo_failing :
  CommandlineHookBridge.New demo_failing start
  = (Some (CommandlineHookBridge.mkCLI
             (Cobra.mkRoot
                (Cobra.mkCommand "testcli" "1.0.0" "" None 0%Z Logrus.Stderr)
                (CommandlineHookBridge.PersistentPreRunE demo_failing) [])
             0%Z
             (map CommandlineHookBridge.user_func
                  (CommandlineHookBridge.CleanupFuncs demo_failing)
                ++ [CommandlineHookBridge.internal_cleanup])%list),
     None, demo_hook_bridge_state).
Proof. reflexivity. Qed.

Lemma callers_run_before_internal_cleanup_witness :
  (exists cr,
      CommandlineHookBridge.New demo_failing start = (Some cr, None, demo_hook_bridge_state)
      /\ CommandlineHookBridge.Cleanup cr (snd once_fired)
         = Aborted "cleanup failed"
                   (CommandlineHookBridge.mkState
                      (mkWorld (rt (CommandlineHookBridge.world (snd once_fired)))
                               ["user1"])
                      (CommandlineHookBridge.env (snd once_fired)))).
Proof.
  eexists. split; [exact New_demo_failing|].
  exact (proj1 (proj2 (proj2 (HookBridgeLifeFacts.callers_run_before_internal_cleanup
                                demo_failing start _ demo_hook_bridge_state
                                (snd once_fired) New_demo_failing))
                      "cleanup failed" _ eq_refl)).
Defined.

Lemma registry_subscriptions_accumulate_witness :
  allocated (rt start)
  /\ never_stops (rt start)
  /\ Forall (fun cmd => Cobra.Context cmd <> None) [running_cmd; running_cmd]
  /\ length (Runtime.handlers
               (rt (registry_fired demo_registry [running_cmd; running_cmd] start))) = 2.
Proof.
  assert (N : never_stops (rt start)) by constructor.
  assert (F : Forall (fun cmd => Cobra.Context cmd <> None) [running_cmd; running_cmd])
    by (repeat constructor; discriminate).
  split; [exact allocated_start|]. split; [exact N|]. split; [exact F|].
  exact (proj1 (RegistryLifeFacts.registry_subscriptions_accumulate
                  demo_registry [running_cmd; running_cmd] start
                  allocated_start N F)).
Defined.

End MoreRuns.
